(** * whisper_backend: streaming session, one-shot upload and output sanitizer

    A shallow embedding of [main.py] (the [/ws] receive loop
    [process_audio] and the [/api/recognize] handler [recognize_audio]) and
    of [voice_service.py] ([process_stream], [process_audio], [listen],
    [_clean_whisper_output]).

    Conventions.
    - A Python [str] is a list of Unicode code points ([str := list N]).
      Literals are written as UTF-8 text and decoded by [py].
    - [np.float64] is IEEE binary64, taken from [SpecFloat] with
      [prec = 53] and [emax = 1024].
    - Exceptions are values of [exn]; a fallible computation returns
      [result A].
    - The world outside the program (the engine subprocess, the temp-file
      write, the clock, the microphone) is an explicit argument [env] of
      each operation; what the program changes (files, subprocess runs,
      log, replies, the buffer of the connection) is the state [world].
    - The host is little-endian, as [np.frombuffer] and [tofile] use the
      native byte order. *)

From Stdlib Require Import ZArith NArith Lia Bool Ascii String DecimalString.
From Stdlib Require Import Floats.SpecFloat.
From stdpp Require Import base tactics option list countable gmap sets.

Local Open Scope N_scope.

(** ** Python strings *)

Definition str := list N.

Module Utf8.

Definition cont (b : N) : N := N.land b 63.

(** Decoder for well-formed UTF-8; it is only ever applied to the
    literals of this file. *)
Fixpoint decode (bs : list N) : list N :=
  match bs with
  | [] => []
  | b :: t =>
      if b <? 128 then b :: decode t
      else if b <? 224 then
        match t with
        | b1 :: t1 => (N.land b 31 * 64 + cont b1) :: decode t1
        | _ => []
        end
      else if b <? 240 then
        match t with
        | b1 :: b2 :: t2 =>
            (N.land b 15 * 4096 + cont b1 * 64 + cont b2) :: decode t2
        | _ => []
        end
      else
        match t with
        | b1 :: b2 :: b3 :: t3 =>
            (N.land b 7 * 262144 + cont b1 * 4096 + cont b2 * 64 + cont b3)
              :: decode t3
        | _ => []
        end
  end.

Fixpoint bytes_of (s : string) : list N :=
  match s with
  | EmptyString => []
  | String a t => N_of_ascii a :: bytes_of t
  end.

End Utf8.

Definition py (s : string) : str := Utf8.decode (Utf8.bytes_of s).

(** [str(n)] for a Python [int]. *)
Definition str_of_int (z : Z) : str :=
  py (NilZero.string_of_int (Z.to_int z)).

(** [str.isspace] on one code point; also the class [\s] of [re] on [str]
    patterns. *)
Definition is_space (c : N) : bool :=
  ((9 <=? c) && (c <=? 13)) || ((28 <=? c) && (c <=? 32))
  || (c =? 133) || (c =? 160) || (c =? 5760)
  || ((8192 <=? c) && (c <=? 8202))
  || (c =? 8232) || (c =? 8233) || (c =? 8239) || (c =? 8287) || (c =? 12288).

Fixpoint lstrip (s : str) : str :=
  match s with
  | c :: t => if is_space c then lstrip t else s
  | [] => []
  end.

Definition rstrip (s : str) : str := rev (lstrip (rev s)).

(** [s.strip()] *)
Definition strip (s : str) : str := rstrip (lstrip s).

(** [sep.join(parts)] *)
Fixpoint join (sep : str) (parts : list str) : str :=
  match parts with
  | [] => []
  | [p] => p
  | p :: rest => p ++ sep ++ join sep rest
  end.

(** [text.split(chr(sep))] for a one-character separator. *)
Fixpoint split_go (sep : N) (cur : str) (text : str) : list str :=
  match text with
  | [] => [rev cur]
  | c :: rest =>
      if c =? sep then rev cur :: split_go sep [] rest
      else split_go sep (c :: cur) rest
  end.

Definition split (sep : N) (text : str) : list str := split_go sep [] text.

(** ** The [re] calls of the sanitizer

    A pattern is given by its anchored matcher: the length of the match that
    starts at the head of the text, if there is one.  [re_sub] and
    [re_split] are the scanning loops of [re.sub] and [re.split]: leftmost
    match, resume after it.  None of the four patterns below matches the
    empty string. *)

Definition matcher := str -> option nat.

Fixpoint re_sub_go (m : matcher) (repl : str) (skip : nat) (text : str) : str :=
  match text with
  | [] => []
  | c :: rest =>
      match skip with
      | S k => re_sub_go m repl k rest
      | O =>
          match m text with
          | Some (S k) => repl ++ re_sub_go m repl k rest
          | _ => c :: re_sub_go m repl 0 rest
          end
      end
  end.

Definition re_sub (m : matcher) (repl : str) (text : str) : str :=
  re_sub_go m repl 0 text.

Fixpoint re_split_go (m : matcher) (skip : nat) (cur : str) (text : str)
  : list str :=
  match text with
  | [] => [rev cur]
  | c :: rest =>
      match skip with
      | S k => re_split_go m k cur rest
      | O =>
          match m text with
          | Some (S k) => rev cur :: re_split_go m k [] rest
          | _ => re_split_go m 0 (c :: cur) rest
          end
      end
  end.

Definition re_split (m : matcher) (text : str) : list str :=
  re_split_go m 0 [] text.

Fixpoint span_len (p : N -> bool) (s : str) : nat :=
  match s with
  | c :: t => if p c then S (span_len p t) else O
  | [] => O
  end.

(** [[0-9;]] and [[a-zA-Z]] *)
Definition is_param (c : N) : bool :=
  ((48 <=? c) && (c <=? 57)) || (c =? 59).

Definition is_letter (c : N) : bool :=
  ((65 <=? c) && (c <=? 90)) || ((97 <=? c) && (c <=? 122)).

(** [r'\x1b\[[0-9;]*[a-zA-Z]'].  The two classes are disjoint, so the greedy
    star never gives a character back. *)
Definition match_ansi (text : str) : option nat :=
  match text with
  | c0 :: c1 :: rest =>
      if (c0 =? 27) && (c1 =? 91) then
        let k := span_len is_param rest in
        match drop k rest with
        | c :: _ => if is_letter c then Some (3 + k)%nat else None
        | [] => None
        end
      else None
  | _ => None
  end.

(** Length of the shortest prefix matching [.*?\]]; [.] excludes the
    newline. *)
Fixpoint find_close (s : str) : option nat :=
  match s with
  | [] => None
  | c :: t =>
      if c =? 93 then Some 1%nat
      else if c =? 10 then None
      else option_map S (find_close t)
  end.

(** [r'\[.*?\]'] *)
Definition match_bracket (text : str) : option nat :=
  match text with
  | c :: rest => if c =? 91 then option_map S (find_close rest) else None
  | [] => None
  end.

(** Length of the longest prefix of whitespace that ends in a newline:
    where the greedy [\s*\n] stops after backtracking. *)
Fixpoint last_newline (s : str) : option nat :=
  match s with
  | c :: t =>
      if is_space c then
        match last_newline t with
        | Some k => Some (S k)
        | None => if c =? 10 then Some 1%nat else None
        end
      else None
  | [] => None
  end.

(** [r'\n\s*\n'] *)
Definition match_blank (text : str) : option nat :=
  match text with
  | c :: rest => if c =? 10 then option_map S (last_newline rest) else None
  | [] => None
  end.

(** [[.。!！?？]] *)
Definition is_terminator (c : N) : bool :=
  (c =? 46) || (c =? 12290) || (c =? 33) || (c =? 65281)
  || (c =? 63) || (c =? 65311).

(** [r'[.。!！?？]+'] *)
Definition match_terminators (text : str) : option nat :=
  match span_len is_terminator text with
  | O => None
  | k => Some k
  end.

(** [text.replace(old, '')] and the literal matcher behind it. *)
Fixpoint starts_with (old text : str) : bool :=
  match old, text with
  | [], _ => true
  | a :: old', b :: text' => (a =? b) && starts_with old' text'
  | _ :: _, [] => false
  end.

Definition match_literal (old : str) (text : str) : option nat :=
  if starts_with old text then Some (length old) else None.

Definition replace (old new text : str) : str :=
  re_sub (match_literal old) new text.

(** [s.startswith(prefix)] is [starts_with prefix s]; [s.endswith(suffix)]: *)
Definition ends_with (suffix s : str) : bool :=
  starts_with (rev suffix) (rev s).

(** ** Exceptions and results *)

Inductive exn :=
| ValueError (msg : str)
| AttributeError (msg : str)
| ValidationError (msg : str)
| RuntimeError (msg : str)
| OSError (msg : str)
| FileNotFoundError (msg : str)
| CalledProcessError (returncode : Z) (stderr : str)
| HTTPException (status_code : Z) (detail : str)
| WebSocketDisconnect.

(** [str(e)].  Starlette prints an [HTTPException] as
    ["<status_code>: <detail>"].  The text of a [CalledProcessError] also
    quotes the command line, which is left out here: the program never
    prints one. *)
Definition exn_str (e : exn) : str :=
  match e with
  | ValueError msg | AttributeError msg | ValidationError msg
  | RuntimeError msg | OSError msg | FileNotFoundError msg => msg
  | CalledProcessError returncode _ =>
      py "Command returned non-zero exit status " ++ str_of_int returncode
        ++ py "."
  | HTTPException status_code detail =>
      str_of_int status_code ++ py ": " ++ detail
  | WebSocketDisconnect => []
  end.

Inductive result (A : Type) :=
| Ok (a : A)
| Raise (e : exn).
Arguments Ok {A} a.
Arguments Raise {A} e.

(** ** binary64 *)

Module F64.

Definition prec : Z := 53.
Definition emax : Z := 1024.

Definition float := spec_float.

Definition zero : float := S754_zero false.
Definition nan : float := S754_nan.

(** Conversion of an integer, rounding to nearest even. *)
Definition of_Z (z : Z) : float := binary_normalize prec emax z 0 false.

Definition add : float -> float -> float := SFadd prec emax.
Definition div : float -> float -> float := SFdiv prec emax.
Definition ltb : float -> float -> bool := SFltb.
Definition leb : float -> float -> bool := SFleb.

End F64.

(** ** NumPy: [frombuffer], [abs], [mean], [max], [tofile] *)

Definition bytes := list Byte.byte.

Module Np.

(** Unsigned value of a little-endian byte string. *)
Fixpoint le_unsigned (bs : bytes) : Z :=
  match bs with
  | [] => 0
  | b :: t => Z.of_N (Byte.to_N b) + 256 * le_unsigned t
  end%Z.

(** Two's complement reading of an unsigned [8 * size]-bit value. *)
Definition to_signed (size : nat) (u : Z) : Z :=
  let half := (2 ^ (8 * Z.of_nat size - 1))%Z in
  if (u <? half)%Z then u else (u - 2 * half)%Z.

Fixpoint items (size : nat) (count : nat) (data : bytes) : list Z :=
  match count with
  | O => []
  | S count' =>
      to_signed size (le_unsigned (take size data))
        :: items size count' (drop size data)
  end.

(** [np.frombuffer(data, dtype)] for a signed integer dtype of [size]
    bytes, on a little-endian host. *)
Definition frombuffer (size : nat) (data : bytes) : result (list Z) :=
  if (length data mod size =? 0)%nat
  then Ok (items size (length data / size) data)
  else Raise (ValueError (py "buffer size must be a multiple of element size")).

(** [a, b = header] *)
Definition unpack2 (header : list Z) : result (Z * Z) :=
  match header with
  | [a; b] => Ok (a, b)
  | [] | [_] =>
      Raise (ValueError (py "not enough values to unpack (expected 2, got "
                           ++ str_of_int (Z.of_nat (length header)) ++ py ")"))
  | _ => Raise (ValueError (py "too many values to unpack (expected 2)"))
  end.

(** [np.abs] on [int16]: the result stays [int16], so the most negative
    value is its own absolute value. *)
Definition abs16 (x : Z) : Z :=
  if (x =? -32768)%Z then (-32768)%Z else Z.abs x.

Definition sum (xs : list Z) : Z := fold_right Z.add 0%Z xs.

(** [a.mean()] on an integer array: the sum is accumulated in [float64]
    and divided by the element count.  Every partial sum of [int16] values
    is an integer below [2^53] for any array of fewer than [2^38]
    elements, so the accumulated sum is the exact one.  The mean of an
    empty array is [0.0 / 0 = nan]. *)
Definition mean (xs : list Z) : F64.float :=
  F64.div (F64.of_Z (sum xs)) (F64.of_Z (Z.of_nat (length xs))).

(** [a.max()] *)
Definition max (xs : list Z) : result Z :=
  match xs with
  | [] => Raise (ValueError (py
      "zero-size array to reduction operation maximum which has no identity"))
  | x :: t => Ok (fold_right Z.max x t)
  end.

Definition byte_of (z : Z) : Byte.byte :=
  default Byte.x00 (Byte.of_N (Z.to_N (z mod 256))).

(** The bytes [tofile] writes for an [int16] array. *)
Definition int16_bytes (x : Z) : bytes :=
  [byte_of x; byte_of (x / 256)].

Definition int32_bytes (x : Z) : bytes :=
  [byte_of x; byte_of (x / 256); byte_of (x / 65536); byte_of (x / 16777216)].

Definition raw16 (xs : list Z) : bytes := flat_map int16_bytes xs.

End Np.

(** ** The world: files, subprocess runs, replies, error log *)

(** One [subprocess] run: the command line, the working directory, and what
    the audio file named by [-f] held when the engine was started. *)
Record invocation := Invocation {
  cmd : list str;
  cwd : option str;
  audio : option bytes }.

(** A message sent with [websocket.send_json]. *)
Record reply := Reply { r_status : str; r_text : str }.

(** [logger.error] and [logger.warning] records.  [logger.info] and [print]
    are not modelled. *)
Inductive log_entry :=
| LogError (msg : str)
| LogWarning (msg : str).

(** Everything mutable: the file system, the subprocess runs so far, the
    log, and for the one [/ws] connection under study the replies sent to
    its peer and the two [nonlocal] variables of its handler. *)
Record world := World {
  files : gmap str bytes;
  runs : list invocation;
  logged : list log_entry;
  sent : list reply;
  audio_buffer : list (list Z);
  buffer_duration : F64.float }.

Definition set_files (f : gmap str bytes) (w : world) : world :=
  World f (runs w) (logged w) (sent w) (audio_buffer w) (buffer_duration w).

Definition add_run (i : invocation) (w : world) : world :=
  World (files w) (runs w ++ [i]) (logged w) (sent w) (audio_buffer w)
    (buffer_duration w).

Definition add_log (l : log_entry) (w : world) : world :=
  World (files w) (runs w) (logged w ++ [l]) (sent w) (audio_buffer w)
    (buffer_duration w).

Definition add_sent (r : reply) (w : world) : world :=
  World (files w) (runs w) (logged w) (sent w ++ [r]) (audio_buffer w)
    (buffer_duration w).

Definition set_buffer (b : list (list Z)) (d : F64.float) (w : world) : world :=
  World (files w) (runs w) (logged w) (sent w) b d.

(** What the operating system does with a write of the temp file: it
    succeeds, or it raises and leaves nothing or a partial file behind. *)
Inductive write_outcome :=
| Written
| WriteFailed (left_behind : option bytes) (e : exn).

(** What the engine subprocess does. *)
Inductive run_outcome :=
| Exited (returncode : Z) (stdout stderr : str)
| SpawnFailed (e : exn).

(** What the microphone does in [listen]. *)
Inductive record_outcome :=
| Recorded (wav : bytes)
| WaitTimeoutError
| ListenFailed (e : exn)
| MicrophoneFailed (e : exn).

(** The answers of the outside world during one operation. *)
Record env := Env {
  now : Z;                  (* [int(time.time())] when the temp file is named *)
  elapsed : F64.float;      (* [time.time() - start_time] *)
  write : write_outcome;
  run : run_outcome;
  recording : record_outcome }.

(** ** State and exceptions *)

Definition M (A : Type) : Type := world -> result A * world.

Definition ret {A} (a : A) : M A := λ w, (Ok a, w).
Definition raise {A} (e : exn) : M A := λ w, (Raise e, w).

Definition bind {A B} (m : M A) (k : A -> M B) : M B :=
  λ w, match m w with
       | (Ok a, w') => k a w'
       | (Raise e, w') => (Raise e, w')
       end.

Notation "x <- m ;; k" := (bind m (λ x, k))
  (at level 100, m at next level, k at level 200, right associativity,
   format "'[v' x  <-  m  ;;  '/' k ']'").
Notation "m ;;; k" := (bind m (λ _, k))
  (at level 100, k at level 200, right associativity,
   format "'[v' m  ;;;  '/' k ']'").

Definition lift {A} (r : result A) : M A := λ w, (r, w).

(** A statement that only changes the world, and a read of it. *)
Definition modify (f : world -> world) : M unit := λ w, (Ok tt, f w).
Definition gets {A} (f : world -> A) : M A := λ w, (Ok (f w), w).

(** [try: body except Exception as e: handler(e)] *)
Definition try_except {A} (body : M A) (handler : exn -> M A) : M A :=
  λ w, match body w with
       | (Ok a, w') => (Ok a, w')
       | (Raise e, w') => handler e w'
       end.

(** [try: body finally: cleanup] *)
Definition try_finally {A} (body : M A) (cleanup : M unit) : M A :=
  λ w, match body w with
       | (r, w') =>
           match cleanup w' with
           | (Ok _, w'') => (r, w'')
           | (Raise e, w'') => (Raise e, w'')
           end
       end.

Definition logger_error (msg : str) : M unit := modify (add_log (LogError msg)).

Definition logger_warning (msg : str) : M unit :=
  modify (add_log (LogWarning msg)).

(** [os.path.exists(path)] *)
Definition os_path_exists (path : str) : M bool :=
  gets (λ w, bool_decide (is_Some (files w !! path))).

(** [os.remove(path)] *)
Definition os_remove (path : str) : M unit :=
  λ w, match files w !! path with
       | Some _ => (Ok tt, set_files (delete path (files w)) w)
       | None => (Raise (FileNotFoundError path), w)
       end.

(** Writing [content] to [path]: [ndarray.tofile], or [open] followed by
    [shutil.copyfileobj] or [f.write]. *)
Definition write_file (ev : env) (path : str) (content : bytes) : M unit :=
  λ w, match write ev with
       | Written => (Ok tt, set_files (<[path := content]> (files w)) w)
       | WriteFailed (Some partial) e =>
           (Raise e, set_files (<[path := partial]> (files w)) w)
       | WriteFailed None e => (Raise e, w)
       end.

(** [subprocess.run(cmd, ..., cwd=cwd)] and [Popen(cmd).communicate()]:
    the run is recorded, and the process exits or cannot be started. *)
Definition subprocess (ev : env) (cmd : list str) (cwd : option str)
    (audio_file : str) : M (Z * str * str) :=
  λ w, let w' := add_run (Invocation cmd cwd (files w !! audio_file)) w in
       match run ev with
       | Exited returncode stdout stderr => (Ok (returncode, stdout, stderr), w')
       | SpawnFailed e => (Raise e, w')
       end.

(** [os.path.join(a, b)] *)
Definition os_path_join (a b : str) : str :=
  if starts_with [47] b then b
  else match last a with
       | None => b
       | Some c => if c =? 47 then a ++ b else a ++ [47] ++ b
       end.

(** ** [voice_service.py] *)

Module VoiceService.

Definition _whisper_path : str := py "/home/huiyu/whisper.cpp".
Definition _output_dir : str := py "outputs".
Definition _model_dir : str := os_path_join _whisper_path (py "models").
Definition default_model : str := py "ggml-tiny.bin".

(** The loop over [sentences], with its two accumulators. *)
Fixpoint dedup_loop (sentences : list str) (seen : gset str)
    (cleaned_sentences : list str) : list str :=
  match sentences with
  | [] => cleaned_sentences
  | s0 :: rest =>
      let s := strip s0 in
      if bool_decide (s ≠ []) && bool_decide (s ∉ seen)
      then dedup_loop rest (seen ∪ {[ s ]}) (cleaned_sentences ++ [s])
      else dedup_loop rest seen cleaned_sentences
  end.

Definition flatten_lines (text : str) : str :=
  let lines := map strip (split 10 text) in
  join [32] (filter (λ line, line ≠ []) lines).

Definition _clean_whisper_output (text : str) : list str :=
  let text := re_sub match_ansi [] text in
  let text := re_sub match_bracket [] text in
  let text := re_sub match_blank [10] text in
  let text := strip text in
  let text := flatten_lines text in
  let sentences := re_split match_terminators text in
  dedup_loop sentences ∅ [].

(** The sentences handed to the loop, stripped, without the empty ones. *)
Definition candidate_sentences (text : str) : list str :=
  let text := re_sub match_ansi [] text in
  let text := re_sub match_bracket [] text in
  let text := re_sub match_blank [10] text in
  let text := strip text in
  let text := flatten_lines text in
  filter (λ s, s ≠ []) (map strip (re_split match_terminators text)).

(** In the words of the specification: every string is kept where it
    first occurs and dropped wherever it occurs again. *)
Fixpoint first_occurrences (l : list str) : list str :=
  match l with
  | [] => []
  | s :: rest => s :: filter (λ x, x ≠ s) (first_occurrences rest)
  end.

(** [subprocess.run(..., check=True)] raises on a nonzero exit code. *)
Definition check_returncode (p : Z * str * str) : M (str * str) :=
  let '(returncode, stdout, stderr) := p in
  if (returncode =? 0)%Z then ret (stdout, stderr)
  else raise (CalledProcessError returncode stderr).

(** The command line of the streaming engine. *)
Definition stream_cmd (audio_file model_name : str) : list str :=
  [ os_path_join _whisper_path (py "stream");
    py "-m"; os_path_join _model_dir model_name;
    py "-f"; audio_file;
    py "-t"; py "8";
    py "--step"; py "500";
    py "--length"; py "5000";
    py "-nr";
    py "-sr"; py "16000";
    py "-ch"; py "1";
    py "-bd"; py "16" ].

Definition process_stream (ev : env) (audio_file : str) (model_name : str)
  : M (list str) :=
  try_except
    (let cmd := stream_cmd audio_file model_name in
     process <- (p <- subprocess ev cmd (Some _whisper_path) audio_file;;
                 check_returncode p);;
     let result := strip (fst process) in
     ret (_clean_whisper_output result))
    (λ e,
       match e with
       | CalledProcessError _ stderr =>
           logger_error (py "whisper 命令行错误: " ++ stderr);;;
           raise (RuntimeError (py "Whisper处理失败: " ++ stderr))
       | _ =>
           logger_error (py "处理错误: " ++ exn_str e);;;
           raise (RuntimeError (py "音频处理失败: " ++ exn_str e))
       end).

(** The world right after [process_stream] has started the engine. *)
Definition stream_started (audio_file model_name : str) (w : world) : world :=
  add_run (Invocation (stream_cmd audio_file model_name)
             (Some _whisper_path) (files w !! audio_file)) w.

(** What [process_stream] returns and what it logs, as a function of what
    the engine does. *)
Definition stream_outcome (ev : env) : result (list str) * list log_entry :=
  let failed (stderr : str) :=
    (Raise (RuntimeError (py "Whisper处理失败: " ++ stderr)),
     [LogError (py "whisper 命令行错误: " ++ stderr)]) in
  let broken (e : exn) :=
    (Raise (RuntimeError (py "音频处理失败: " ++ exn_str e)),
     [LogError (py "处理错误: " ++ exn_str e)]) in
  match run ev with
  | Exited returncode stdout stderr =>
      if (returncode =? 0)%Z
      then (Ok (_clean_whisper_output (strip stdout)), [])
      else failed stderr
  | SpawnFailed (CalledProcessError _ stderr) => failed stderr
  | SpawnFailed e => broken e
  end.

Definition add_logs (entries : list log_entry) (w : world) : world :=
  World (files w) (runs w) (logged w ++ entries) (sent w) (audio_buffer w)
    (buffer_duration w).

Definition BLANK_AUDIO : str := py "[BLANK_AUDIO]".

(** The command line of the single-shot engine. *)
Definition main_cmd (wav_file model_path : str) : list str :=
  [ os_path_join _whisper_path (py "main");
    py "-m"; model_path;
    py "-f"; wav_file;
    py "-l"; py "auto";
    py "-np";
    py "-nt";
    py "--max-len"; py "0" ].

(** The sample-rate check on the WAV header sits in a [try] of its own whose
    handler only prints, so it has no effect on the result and is left
    out. *)
Definition process_audio (ev : env) (wav_file : str) (model_name : str)
  : M str :=
  try_except
    (present <- os_path_exists wav_file;;
     (if present then ret tt
      else raise (FileNotFoundError (py "音频文件不存在: " ++ wav_file)));;;
     let model_path :=
       os_path_join (os_path_join _whisper_path (py "models")) model_name in
     present <- os_path_exists model_path;;
     (if present then ret tt
      else raise (FileNotFoundError (py "模型文件不存在: " ++ model_path)));;;
     let command := main_cmd wav_file model_path in
     p <- subprocess ev command None wav_file;;
     let '(returncode, stdout, stderr) := p in
     (if (returncode =? 0)%Z then ret tt
      else raise (RuntimeError
                    (py "Whisper处理失败 (返回码: " ++ str_of_int returncode
                       ++ py "): " ++ stderr)));;;
     let text := strip stdout in
     if bool_decide (text = []) then ret (py "未检测到语音内容")
     else if bool_decide (text = BLANK_AUDIO) then ret (py "检测到空白音频")
     else ret (strip (replace BLANK_AUDIO [] text)))
    (λ e, raise (RuntimeError (py "音频处理失败: " ++ exn_str e))).

Definition remove_if_exists (path : str) : M unit :=
  present <- os_path_exists path;;
  if present then os_remove path else ret tt.

(** The returned duration is the Python [int] [0] on the early exits and
    the measured time otherwise. *)
Definition listen (ev : env) : M (str * F64.float) :=
  try_except
    (let transcribed_file := _output_dir ++ py "/transcribed-audio.wav" in
     match recording ev with
     | MicrophoneFailed e => raise e
     | WaitTimeoutError =>
         logger_error (py "等待超时，未检测到语音输入");;;
         ret (py "未检测到语音输入", F64.zero)
     | ListenFailed e =>
         logger_error (py "录音过程出错: " ++ exn_str e);;;
         ret (py "录音错误: " ++ exn_str e, F64.zero)
     | Recorded wav =>
         try_except
           (write_file ev transcribed_file wav;;;
            result <- process_audio ev transcribed_file default_model;;
            let duration := elapsed ev in
            remove_if_exists transcribed_file;;;
            ret (result, duration))
           (λ e,
              logger_error (py "处理过程出错: " ++ exn_str e);;;
              remove_if_exists transcribed_file;;;
              ret (py "处理错误: " ++ exn_str e, F64.zero))
     end)
    (λ e,
       logger_error (py "语音识别过程出错: " ++ exn_str e);;;
       ret (py "识别错误: " ++ exn_str e, F64.zero)).

(** [file.replace("ggml-", "").replace(".bin", "")] *)
Definition model_key (file : str) : str :=
  replace (py ".bin") [] (replace (py "ggml-") [] file).

(** The loop of [get_available_models] over the directory listing, with
    the dictionary [models] it fills. *)
Fixpoint collect_models (listing : list str) (models : gmap str str)
  : gmap str str :=
  match listing with
  | [] => models
  | file :: rest =>
      if starts_with (py "ggml-") file && ends_with (py ".bin") file
      then collect_models rest
             (<[model_key file := os_path_join _model_dir file]> models)
      else collect_models rest models
  end.

(** [listing] is the answer of [os.listdir(self._model_dir)]: the names in
    the directory, or the exception it raises. *)
Definition get_available_models (listing : result (list str))
  : M (gmap str str) :=
  try_except
    (listed <- lift listing;;
     ret (collect_models listed ∅))
    (λ e,
       logger_error (py "Error listing models: " ++ exn_str e);;;
       ret ∅).

Definition check_model_exists (model_name : str) : M bool :=
  let model_path :=
    os_path_join _model_dir (py "ggml-" ++ model_name ++ py ".bin") in
  os_path_exists model_path.

End VoiceService.

(** ** [main.py] *)

Module Main.

Import VoiceService.

Record RecognitionResponse := {
  text : str;
  duration : F64.float;
  status : str }.

(** A value that is a [str] or a [list] of [str]: what the handlers hold in
    [result]. *)
Inductive pyval :=
| PyStr (s : str)
| PyList (l : list str).

(** Truth value: an empty [str] and an empty [list] are false. *)
Definition truth (v : pyval) : bool :=
  match v with
  | PyStr s => bool_decide (s ≠ [])
  | PyList l => bool_decide (l ≠ [])
  end.

(** [v.strip()] *)
Definition call_strip (v : pyval) : result pyval :=
  match v with
  | PyStr s => Ok (PyStr (strip s))
  | PyList _ =>
      Raise (AttributeError (py "'list' object has no attribute 'strip'"))
  end.

(** [RecognitionResponse(text=..., duration=..., status=...)]: the model
    validates that [text] is a [str]. *)
Definition new_RecognitionResponse (text : pyval) (duration : F64.float)
    (status : str) : result RecognitionResponse :=
  match text with
  | PyStr s => Ok {| text := s; duration := duration; status := status |}
  | PyList _ =>
      Raise (ValidationError
               (py "1 validation error for RecognitionResponse"))
  end.

Definition temp_file (ev : env) : str :=
  os_path_join _output_dir (py "temp_" ++ str_of_int (now ev) ++ py ".raw").

(** [POST /api/recognize] *)
Definition recognize_audio (ev : env) (file : bytes) (model : str)
  : M RecognitionResponse :=
  try_finally
    (try_except
       (let temp_file := temp_file ev in
        try_except
          (write_file ev temp_file file)
          (λ e,
             logger_error (py "Error saving uploaded file: " ++ exn_str e);;;
             raise (HTTPException 500 (py "Error saving file: " ++ exn_str e)));;;
        try_except
          (r <- process_stream ev temp_file model;;
           let result := PyList r in
           let duration := elapsed ev in
           blank <- (if negb (truth result) then ret true
                     else stripped <- lift (call_strip result);;
                          ret (negb (truth stripped)));;
           if blank : bool then
             logger_warning (py "No text detected in audio");;;
             lift (new_RecognitionResponse (PyStr []) duration (py "no_text"))
           else
             lift (new_RecognitionResponse result duration (py "success")))
          (λ e,
             logger_error (py "Audio processing error: " ++ exn_str e);;;
             raise (HTTPException 500
                      (py "Audio processing failed: " ++ exn_str e))))
       (λ e,
          logger_error (py "Recognition error: " ++ exn_str e);;;
          raise (HTTPException 500 (exn_str e))))
    (try_except
       (remove_if_exists (temp_file ev))
       (λ e,
          logger_error (py "Error cleaning up temp file " ++ temp_file ev
                          ++ py ": " ++ exn_str e))).

(** [POST /api/listen] *)
Definition listen (ev : env) : M RecognitionResponse :=
  try_except
    (p <- VoiceService.listen ev;;
     ret {| text := fst p; duration := snd p; status := py "success" |})
    (λ e,
       logger_error (py "Listening error: " ++ exn_str e);;;
       raise (HTTPException 500 (exn_str e))).

(** *** The [/ws] handler *)

(** What [websocket.receive_bytes()] yields. *)
Inductive recv :=
| Bytes (data : bytes)
| Disconnect.

Definition receive_bytes (msg : recv) : M bytes :=
  match msg with
  | Bytes data => ret data
  | Disconnect => raise WebSocketDisconnect
  end.

(** [websocket.send_json({"status": ..., "text": ...})]; the peer is taken
    to be connected for as long as frames arrive from it. *)
Definition send_json (status text : str) : M unit :=
  modify (add_sent (Reply status text)).

(** A frame as the loop body sees it after its first three statements:
    the two header fields and the samples. *)
Record frame := Frame {
  sample_rate : Z;
  num_samples : Z;
  audio_data : list Z }.

(** [header = np.frombuffer(data[:8], dtype=np.int32)],
    [sample_rate, num_samples = header],
    [audio_data = np.frombuffer(data[8:], dtype=np.int16)]. *)
Definition decode (data : bytes) : result frame :=
  match Np.frombuffer 4 (take 8 data) with
  | Raise e => Raise e
  | Ok header =>
      match Np.unpack2 header with
      | Raise e => Raise e
      | Ok (sample_rate, num_samples) =>
          match Np.frombuffer 2 (drop 8 data) with
          | Raise e => Raise e
          | Ok audio_data => Ok (Frame sample_rate num_samples audio_data)
          end
      end
  end.

(** [np.abs(audio_data).mean()] *)
Definition volume (f : frame) : F64.float :=
  Np.mean (map Np.abs16 (audio_data f)).

(** [num_samples / sample_rate], a true division of two [np.int32]
    scalars: a zero divisor gives an infinity or [nan], not an exception. *)
Definition declared_duration (f : frame) : F64.float :=
  F64.div (F64.of_Z (num_samples f)) (F64.of_Z (sample_rate f)).

Definition MIN_DURATION : F64.float := F64.of_Z 2.

Definition volume_threshold : F64.float := F64.of_Z 500.

(** [for sentence in result: if sentence: send_json(...)] *)
Fixpoint send_sentences (result : list str) : M unit :=
  match result with
  | [] => ret tt
  | sentence :: rest =>
      (if bool_decide (sentence ≠ [])
       then send_json (py "success") sentence else ret tt);;;
      send_sentences rest
  end.

(** The block under [if buffer_duration >= MIN_DURATION]. *)
Definition flush (ev : env) : M unit :=
  combined_audio <- gets (λ w, concat (audio_buffer w));;
  let mean_volume := Np.mean (map Np.abs16 combined_audio) in
  max_volume <- lift (Np.max (map Np.abs16 combined_audio));;
  let temp_file := temp_file ev in
  write_file ev temp_file (Np.raw16 combined_audio);;;
  try_finally
    (try_except
       (result <- process_stream ev temp_file default_model;;
        if bool_decide (result ≠ []) then send_sentences result
        else send_json (py "no_text") (py "未识别到文本"))
       (λ e,
          logger_error (py "音频处理错误: " ++ exn_str e);;;
          send_json (py "error") (py "处理错误: " ++ exn_str e)))
    (remove_if_exists temp_file);;;
  modify (set_buffer [] F64.zero).

(** [audio_buffer.append(audio_data)] and
    [buffer_duration += num_samples / sample_rate]. *)
Definition keep (f : frame) (w : world) : world :=
  set_buffer (audio_buffer w ++ [audio_data f])
    (F64.add (buffer_duration w) (declared_duration f)) w.

(** One pass through the body of [while True], up to [continue] or the end
    of the body. *)
Definition iteration (ev : env) (msg : recv) : M unit :=
  data <- receive_bytes msg;;
  f <- lift (decode data);;
  if F64.ltb (volume f) volume_threshold then ret tt
  else
    modify (keep f);;;
    crossed <- gets (λ w, F64.leb MIN_DURATION (buffer_duration w));;
    if crossed : bool then flush ev else ret tt.

Inductive session := Receiving | Closed.

(** The receive loop over the messages that arrive, each with the answers
    the world gives while it is processed.  A [WebSocketDisconnect] leaves
    the loop; any other exception leaves it through the outer handler,
    which logs it.  When the messages are used up the loop is suspended in
    [receive_bytes]. *)
Fixpoint process_audio (inputs : list (env * recv)) (w : world)
  : session * world :=
  match inputs with
  | [] => (Receiving, w)
  | (ev, msg) :: rest =>
      match iteration ev msg w with
      | (Ok _, w') => process_audio rest w'
      | (Raise WebSocketDisconnect, w') => (Closed, w')
      | (Raise e, w') =>
          (Closed, add_log (LogError (py "处理音频数据时出错: " ++ exn_str e)) w')
      end
  end.

(** The state of a connection that has just been accepted. *)
Definition accept (w : world) : world :=
  World (files w) (runs w) (logged w) [] [] F64.zero.

(** The replies a flush sends for a given result of [process_stream], and
    what the handler in [flush] logs. *)
Definition replies_for (r : result (list str)) : list reply :=
  match r with
  | Ok [] => [Reply (py "no_text") (py "未识别到文本")]
  | Ok result => map (Reply (py "success")) (filter (λ s, s ≠ []) result)
  | Raise e => [Reply (py "error") (py "处理错误: " ++ exn_str e)]
  end.

Definition handler_log (r : result (list str)) : list log_entry :=
  match r with
  | Ok _ => []
  | Raise e => [LogError (py "音频处理错误: " ++ exn_str e)]
  end.

(** The world after a flush whose temp file was written. *)
Definition flushed (ev : env) (w : world) : world :=
  let r := (stream_outcome ev).1 in
  World (delete (temp_file ev) (files w))
    (runs w ++ [Invocation (stream_cmd (temp_file ev) default_model)
                  (Some _whisper_path)
                  (Some (Np.raw16 (concat (audio_buffer w))))])
    (logged w ++ (stream_outcome ev).2 ++ handler_log r)
    (sent w ++ replies_for r)
    [] F64.zero.

(** The frames among the messages that decode and pass the volume test, in
    arrival order. *)
Fixpoint kept_frames (inputs : list (env * recv)) : list frame :=
  match inputs with
  | [] => []
  | (_, Disconnect) :: rest => kept_frames rest
  | (_, Bytes data) :: rest =>
      match decode data with
      | Ok f =>
          if F64.ltb (volume f) volume_threshold then kept_frames rest
          else f :: kept_frames rest
      | Raise _ => kept_frames rest
      end
  end.

(** The duration counter after adding the frames of [held] to [d] one by
    one. *)
Definition accumulate (d : F64.float) (held : list frame) : F64.float :=
  fold_left (λ d f, F64.add d (declared_duration f)) held d.

(** A message carrying the given frame. *)
Definition encode (f : frame) : bytes :=
  Np.int32_bytes (sample_rate f) ++ Np.int32_bytes (num_samples f)
    ++ Np.raw16 (audio_data f).

(** [GET /api/status] *)
Record StatusResponse := {
  service_status : str;
  models : gmap str str }.

Definition get_status (listing : result (list str)) : M StatusResponse :=
  available <- get_available_models listing;;
  ret {| service_status := py "running"; models := available |}.

(** [websocket_endpoint] once the connection is accepted: it awaits the
    task [process_audio] and closes the socket in its [finally]; the
    messages are those that arrive before the close. *)
Definition websocket_endpoint (inputs : list (env * recv)) (w : world)
  : session * world :=
  let '(_, w') := process_audio inputs (accept w) in
  (Closed, w').

End Main.

(** ** Scenarios *)

Definition empty_world : world := World ∅ [] [] [] [] F64.zero.

(** A world in which the default model file is installed. *)
Definition model_installed : world :=
  World {[ os_path_join
             (os_path_join VoiceService._whisper_path (py "models"))
             VoiceService.default_model := [] ]} [] [] [] [] F64.zero.

(** The world's answers when the write succeeds and the engine prints
    [stdout] and exits with code 0. *)
Definition engine_prints (stdout : string) : env :=
  Env 1700000000 F64.zero Written (Exited 0 (py stdout) [])
    (Recorded []).

(** The engine exits with code 1 and a message on stderr. *)
Definition engine_fails : env :=
  Env 1700000000 F64.zero Written
    (Exited 1 [] (py "failed to load model")) (Recorded []).

(** The temp file is created and the write then fails. *)
Definition disk_full : env :=
  Env 1700000000 F64.zero
    (WriteFailed (Some []) (OSError (py "[Errno 28] No space left on device")))
    (Exited 0 (py "hello") []) (Recorded []).

(** Four samples of low amplitude at 16 kHz. *)
Definition quiet_frame : Main.frame := Main.Frame 16000 4 [100; -100; 0; 499]%Z.

(** Two loud samples under a header that declares two seconds. *)
Definition loud_frame : Main.frame := Main.Frame 16000 32000 [1000; -1000]%Z.

(** A header that declares two seconds, and no sample at all. *)
Definition header_only : Main.frame := Main.Frame 16000 32000 [].

(** A loud sample under a header that declares 0 samples at 0 Hz. *)
Definition zero_header : Main.frame := Main.Frame 0 0 [1000]%Z.

(** [n] samples of constant amplitude [x]. *)
Definition tone (n x : Z) : list Z := repeat x (Z.to_nat n).

(** Half a second at 44.1 kHz. *)
Definition half_second (x : Z) : Main.frame :=
  Main.Frame 44100 22050 (tone 22050 x).


(** The pending buffer holds the samples of [held], the counter is the
    sum of their declared durations, and the threshold is not reached. *)
Definition pending (held : list Main.frame) (w : world) : Prop :=
  audio_buffer w = map Main.audio_data held
  ∧ buffer_duration w = Main.accumulate F64.zero held
  ∧ F64.leb Main.MIN_DURATION (buffer_duration w) = false.


(** The model file [process_audio] looks for, and the world right after it
    has started the engine. *)
Definition model_path_of (model_name : str) : str :=
  os_path_join (os_path_join VoiceService._whisper_path (py "models"))
    model_name.

Definition main_started (wav_file model_name : str) (w : world) : world :=
  add_run (Invocation
             (VoiceService.main_cmd wav_file (model_path_of model_name))
             None (files w !! wav_file)) w.

(** The file [listen] records into. *)
Definition transcribed_file : str :=
  VoiceService._output_dir ++ py "/transcribed-audio.wav".

(** A computation relates the world it ends in to the world it starts
    from by [R], whether it returns or raises. *)
Definition keeps {A} (R : world → world → Prop) (m : M A) : Prop :=
  ∀ w, R w (m w).2.



(** [old] occurs nowhere in [text]. *)
Fixpoint absent (old text : str) : bool :=
  negb (starts_with old text)
  && match text with
     | [] => true
     | _ :: rest => absent old rest
     end.

(** No occurrence of [old] in [name ++ old] starts inside [name]. *)
Fixpoint only_at_end (old name : str) : bool :=
  match name with
  | [] => true
  | _ :: rest => negb (starts_with old (name ++ old)) && only_at_end old rest
  end.

(** The code points a clean sentence is free of: ESC, an opening bracket,
    the newline and the sentence terminators. *)
Definition plain (c : N) : Prop :=
  c ≠ 27 ∧ c ≠ 91 ∧ c ≠ 10 ∧ is_terminator c = false.

(** * Properties *)

Import VoiceService Main.

(** Evaluation on the virtual machine, without printing the value. *)
Ltac evaluated :=
  match goal with
  | |- _ = ?rhs => vm_cast_no_check (eq_refl rhs)
  end.

Arguments py : simpl never.
Arguments str_of_int : simpl never.
Arguments strip : simpl never.
Arguments replace : simpl never.
Arguments os_path_join : simpl never.
Arguments _clean_whisper_output : simpl never.
Arguments stream_cmd : simpl never.
Arguments main_cmd : simpl never.
Arguments temp_file : simpl never.
Arguments exn_str : simpl never.
Arguments Np.mean : simpl never.
Arguments Np.raw16 : simpl never.
Arguments F64.of_Z : simpl never.
Arguments F64.add : simpl never.
Arguments F64.div : simpl never.
Arguments F64.ltb : simpl never.
Arguments F64.leb : simpl never.

(** ** The sanitizer *)

Section Sanitizer.

Lemma dedup_loop_inv (sentences : list str) :
  ∀ (seen : gset str) (cleaned : list str),
    NoDup cleaned →
    (∀ s, s ∈ cleaned → s ∈ seen) →
    NoDup (dedup_loop sentences seen cleaned).
Proof.
  induction sentences as [|s0 rest IH]; intros seen cleaned Hnd Hseen.
  - exact Hnd.
  - cbn [dedup_loop].
    destruct (bool_decide (strip s0 ≠ [])) eqn:Hne; cbn [andb];
      [|by apply IH].
    destruct (bool_decide (strip s0 ∉ seen)) eqn:Hnew; [|by apply IH].
    apply bool_decide_eq_true in Hnew.
    apply IH.
    + apply NoDup_app. split_and!; [done| |apply NoDup_singleton].
      intros x Hx Hx'. apply list_elem_of_singleton in Hx' as ->.
      by apply Hnew, Hseen.
    + intros s [Hs|Hs]%elem_of_app; [set_solver|].
      apply list_elem_of_singleton in Hs as ->. set_solver.
Qed.

(** The loop computes the first occurrences of the non-empty stripped
    sentences that are not in [seen] yet. *)
Lemma dedup_loop_first_occurrences (sentences : list str) :
  ∀ (seen : gset str) (cleaned : list str),
    dedup_loop sentences seen cleaned
    = cleaned
        ++ filter (λ x, x ∉ seen)
             (first_occurrences (filter (λ s, s ≠ []) (map strip sentences))).
Proof.
  induction sentences as [|s0 rest IH]; intros seen cleaned.
  - cbn. by rewrite app_nil_r.
  - cbn [dedup_loop map].
    destruct (decide (strip s0 ≠ [])) as [Hne|Hnil].
    + rewrite (bool_decide_eq_true_2 _ Hne), filter_cons_True by done.
      cbn [andb first_occurrences].
      destruct (decide (strip s0 ∉ seen)) as [Hnew|Hold].
      * rewrite (bool_decide_eq_true_2 _ Hnew), IH, filter_cons_True by done.
        rewrite <- app_assoc. cbn [app]. do 2 f_equal.
        rewrite list_filter_filter. apply list_filter_iff.
        intros x. rewrite not_elem_of_union, not_elem_of_singleton. tauto.
      * rewrite (bool_decide_eq_false_2 _ Hold), IH, filter_cons_False by done.
        f_equal. rewrite list_filter_filter. apply list_filter_iff.
        intros x. split; [|tauto].
        intros Hx. split; [done|]. intros ->. by apply Hold.
    + rewrite (bool_decide_eq_false_2 _ Hnil), filter_cons_False by done.
      cbn [andb]. apply IH.
Qed.

Lemma filter_all {A} (P : A → Prop) `{∀ x, Decision (P x)} (l : list A) :
  (∀ x, P x) → filter P l = l.
Proof.
  intros HP. induction l as [|x l IH]; [done|].
  rewrite filter_cons_True by apply HP. by rewrite IH.
Qed.

End Sanitizer.

Example clean_hello :
  _clean_whisper_output (py "hello world") = [py "hello world"].
Proof. vm_compute. reflexivity. Qed.

Example clean_blank_prefix :
  _clean_whisper_output (py "[BLANK_AUDIO] hello.") = [py "hello"].
Proof. vm_compute. reflexivity. Qed.

Example clean_ansi_and_blank_lines :
  _clean_whisper_output
    ([27; 91; 50; 75] ++ py " one!  " ++ [10; 32; 10; 10] ++ py "two？one。")
  = [py "one"; py "two"].
Proof. vm_compute. reflexivity. Qed.

Example clean_sentinel_only : _clean_whisper_output BLANK_AUDIO = [].
Proof. vm_compute. reflexivity. Qed.

(** C9.  The sanitizer drops repeated sentences and keeps the first
    occurrences in order: on ["Hi. Hi. Bye."] it returns ["Hi"; "Bye"]; on
    every input the returned list has no repeated element, and it is the
    list of first occurrences of the non-empty sentences. *)
Theorem clean_whisper_output_dedup :
  _clean_whisper_output (py "Hi. Hi. Bye.") = [py "Hi"; py "Bye"]
  ∧ (∀ text : str, NoDup (_clean_whisper_output text))
  ∧ (∀ text : str,
       _clean_whisper_output text
       = first_occurrences (candidate_sentences text)).
Proof.
  split_and!.
  - vm_compute. reflexivity.
  - intros text. unfold _clean_whisper_output.
    apply dedup_loop_inv; [apply NoDup_nil_2|].
    intros s Hs. by apply elem_of_nil in Hs.
  - intros text. unfold _clean_whisper_output, candidate_sentences.
    rewrite dedup_loop_first_occurrences. cbn [app].
    apply filter_all. intros x. apply not_elem_of_empty.
Qed.

(** ** The engine wrappers *)

Section Engine.

Variables (ev : env) (audio_file model_name : str) (w : world).

Lemma process_stream_exit0 (stdout stderr : str) :
  run ev = Exited 0 stdout stderr →
  process_stream ev audio_file model_name w
  = (Ok (_clean_whisper_output (strip stdout)),
     stream_started audio_file model_name w).
Proof.
  intros Hrun.
  unfold process_stream, try_except, bind, subprocess.
  rewrite Hrun. reflexivity.
Qed.

Lemma process_stream_nonzero (returncode : Z) (stdout stderr : str) :
  run ev = Exited returncode stdout stderr →
  returncode ≠ 0%Z →
  process_stream ev audio_file model_name w
  = (Raise (RuntimeError (py "Whisper处理失败: " ++ stderr)),
     add_log (LogError (py "whisper 命令行错误: " ++ stderr))
       (stream_started audio_file model_name w)).
Proof.
  intros Hrun Hrc.
  unfold process_stream, try_except, bind, subprocess.
  rewrite Hrun. cbn.
  destruct (Z.eqb_spec returncode 0) as [?|_]; [done|]. reflexivity.
Qed.

End Engine.

(** ** The upload handler *)

Section OneShot.

Variables (ev : env) (file : bytes) (model : str) (w : world).

Lemma remove_if_exists_gone (path : str) (w0 : world) :
  remove_if_exists path w0 = (Ok tt, set_files (delete path (files w0)) w0).
Proof.
  unfold remove_if_exists, bind, os_path_exists, gets, os_remove, ret.
  destruct (files w0 !! path) as [content|] eqn:Hpath.
  - rewrite bool_decide_eq_true_2 by eauto. by rewrite Hpath.
  - rewrite bool_decide_eq_false_2 by (intros [? ?]; congruence).
    rewrite delete_id by done. by destruct w0.
Qed.



(** With no sentence recognized the handler answers [no_text]. *)
Lemma recognize_audio_no_text (stdout stderr : str) :
  write ev = Written →
  run ev = Exited 0 stdout stderr →
  _clean_whisper_output (strip stdout) = [] →
  ∃ w',
    recognize_audio ev file model w
    = (Ok {| text := []; duration := elapsed ev; status := py "no_text" |}, w').
Proof.
  intros Hwrite Hrun Hnone.
  unfold recognize_audio, try_finally, try_except at 1 2.
  unfold bind at 1. unfold try_except at 1. unfold write_file at 1.
  rewrite Hwrite. unfold try_except at 1. unfold bind at 1.
  rewrite (process_stream_exit0 _ _ _ _ _ _ Hrun), Hnone.
  cbn [truth]. rewrite bool_decide_eq_false_2 by (intros H; by apply H).
  cbn -[py remove_if_exists]. unfold try_except.
  rewrite remove_if_exists_gone. eexists. reflexivity.
Qed.

End OneShot.

Lemma strip_error_detail :
  exn_str
    (HTTPException 500
       (py "Audio processing failed: "
          ++ exn_str (AttributeError (py "'list' object has no attribute 'strip'"))))
  = py "500: Audio processing failed: 'list' object has no attribute 'strip'".
Proof. vm_compute. reflexivity. Qed.

(** The failure in full: the [AttributeError] of [result.strip()], wrapped
    twice. *)
Lemma recognize_audio_strip_error
    (ev : env) (file : bytes) (model : str) (w : world) (stdout stderr : str) :
  write ev = Written →
  run ev = Exited 0 stdout stderr →
  _clean_whisper_output (strip stdout) ≠ [] →
  ∃ w',
    recognize_audio ev file model w
    = (Raise (HTTPException 500
                (py "500: Audio processing failed: 'list' object has no attribute 'strip'")),
       w').
Proof.
  intros Hwrite Hrun Hne.
  unfold recognize_audio, try_finally, try_except at 1 2.
  unfold bind at 1. unfold try_except at 1. unfold write_file at 1.
  rewrite Hwrite. unfold try_except at 1. unfold bind at 1.
  rewrite (process_stream_exit0 _ _ _ _ _ _ Hrun).
  cbn [truth]. rewrite bool_decide_eq_true_2 by done.
  cbn -[py remove_if_exists]. unfold try_except.
  rewrite remove_if_exists_gone, strip_error_detail. eexists. reflexivity.
Qed.

(** C1.  When the engine exits with code 0 and the sanitizer returns at
    least one sentence, [recognize_audio] does not answer with status
    [success]: [result] is the list returned by [process_stream], the call
    [result.strip()] raises [AttributeError], and the request fails with an
    [HTTPException] of status 500. *)
Theorem recognize_audio_nonblank_raises
    (ev : env) (file : bytes) (model : str) (w : world) (stdout stderr : str) :
  write ev = Written →
  run ev = Exited 0 stdout stderr →
  _clean_whisper_output (strip stdout) ≠ [] →
  ∃ detail w',
    recognize_audio ev file model w = (Raise (HTTPException 500 detail), w').
Proof.
  intros Hwrite Hrun Hne.
  destruct (recognize_audio_strip_error ev file model w stdout stderr)
    as [w' Hraise]; [done..|].
  eexists _, w'. exact Hraise.
Qed.

(** The theorem at an upload for which the engine prints "hello". *)
Lemma recognize_audio_nonblank_raises_witness :
  ∃ detail w',
    recognize_audio (engine_prints "hello") [] default_model empty_world
    = (Raise (HTTPException 500 detail), w').
Proof.
  apply (recognize_audio_nonblank_raises (engine_prints "hello") []
           default_model empty_world (py "hello") []).
  - reflexivity.
  - reflexivity.
  - vm_compute. discriminate.
Defined.

(** ** The sentinel [[BLANK_AUDIO]] *)

Lemma BLANK_AUDIO_nonempty : BLANK_AUDIO ≠ [].
Proof. vm_compute. discriminate. Qed.

(** [process_audio], the single-shot wrapper, answers the sentinel with its
    fixed text, before any cleaning of the output. *)
Lemma process_audio_sentinel
    (ev : env) (wav_file model_name : str) (w : world) (stdout stderr : str) :
  let model_path :=
    os_path_join (os_path_join _whisper_path (py "models")) model_name in
  is_Some (files w !! wav_file) →
  is_Some (files w !! model_path) →
  run ev = Exited 0 stdout stderr →
  strip stdout = BLANK_AUDIO →
  VoiceService.process_audio ev wav_file model_name w
  = (Ok (py "检测到空白音频"),
     add_run (Invocation (main_cmd wav_file model_path) None
                (files w !! wav_file)) w).
Proof.
  intros model_path Hwav Hmodel Hrun Hstrip.
  unfold VoiceService.process_audio, try_except.
  unfold bind at 1. unfold os_path_exists at 1, gets at 1.
  rewrite (bool_decide_eq_true_2 _ Hwav).
  unfold bind at 1, ret at 1. unfold bind at 1.
  unfold os_path_exists at 1, gets at 1.
  fold model_path. rewrite (bool_decide_eq_true_2 _ Hmodel).
  unfold bind at 1, ret at 1. unfold bind at 1. unfold subprocess at 1.
  rewrite Hrun. cbn [Z.eqb]. unfold bind at 1, ret at 1.
  rewrite Hstrip.
  rewrite (bool_decide_eq_false_2 _ BLANK_AUDIO_nonempty).
  rewrite bool_decide_eq_true_2 by done.
  reflexivity.
Qed.

(** C4, as amended.  When the trimmed engine output is exactly
    [[BLANK_AUDIO]], the microphone path ([/api/listen], through
    [VoiceService.process_audio]) answers with the fixed text
    "检测到空白音频" and status [success]; the upload path
    ([/api/recognize], through [process_stream]) removes the sentinel in the
    sanitizer and answers with the empty text and status [no_text]. *)
Theorem blank_audio_sentinel
    (ev : env) (w : world) (wav file : bytes) (model stdout stderr : str) :
  recording ev = Recorded wav →
  write ev = Written →
  run ev = Exited 0 stdout stderr →
  strip stdout = BLANK_AUDIO →
  is_Some (files w !! os_path_join (os_path_join _whisper_path (py "models"))
                        default_model) →
  (∃ w', Main.listen ev w
         = (Ok {| text := py "检测到空白音频"; duration := elapsed ev;
                  status := py "success" |}, w'))
  ∧ (∃ w', recognize_audio ev file model w
           = (Ok {| text := []; duration := elapsed ev;
                    status := py "no_text" |}, w')).
Proof.
  intros Hrec Hwrite Hrun Hstrip Hmodel. split.
  - unfold Main.listen, VoiceService.listen.
    unfold try_except at 1. unfold bind at 1. unfold try_except at 1.
    rewrite Hrec. unfold try_except at 1. unfold bind at 1.
    unfold write_file at 1. rewrite Hwrite. unfold bind at 1.
    erewrite process_audio_sentinel; [| | |exact Hrun|exact Hstrip];
      cbn [files set_files].
    + unfold bind at 1. rewrite remove_if_exists_gone.
      unfold ret. eexists. reflexivity.
    + apply lookup_insert_is_Some'. by left.
    + apply lookup_insert_is_Some'. by right.
  - apply recognize_audio_no_text with stdout stderr; [done|done|].
    rewrite Hstrip. apply clean_sentinel_only.
Qed.

(** The theorem with the model installed and the engine printing the
    sentinel. *)
Lemma blank_audio_sentinel_witness :
  (∃ w', Main.listen (engine_prints "[BLANK_AUDIO]") model_installed
         = (Ok {| text := py "检测到空白音频"; duration := F64.zero;
                  status := py "success" |}, w'))
  ∧ (∃ w', recognize_audio (engine_prints "[BLANK_AUDIO]") [] default_model
             model_installed
           = (Ok {| text := []; duration := F64.zero;
                    status := py "no_text" |}, w')).
Proof.
  apply (blank_audio_sentinel (engine_prints "[BLANK_AUDIO]") model_installed
           [] [] default_model (py "[BLANK_AUDIO]") []).
  - reflexivity.
  - reflexivity.
  - reflexivity.
  - vm_compute. reflexivity.
  - unfold model_installed. cbn [files]. rewrite lookup_singleton_eq. eauto.
Defined.

(** C4, as stated, fails on the upload path: with the engine printing
    exactly [[BLANK_AUDIO]], [recognize_audio] returns the empty text, not
    the fixed text. *)
Lemma recognize_audio_sentinel_counterexample :
  ∃ r, (recognize_audio (engine_prints "[BLANK_AUDIO]") [] default_model
          empty_world).1 = Ok r
       ∧ text r = []
       ∧ status r = py "no_text"
       ∧ text r ≠ py "检测到空白音频".
Proof.
  eexists. split; [vm_compute; reflexivity|].
  split_and!; [reflexivity|vm_compute; reflexivity|vm_compute; discriminate].
Qed.

(** ** The [/ws] receive loop *)

Section Streaming.

Lemma process_stream_outcome (ev : env) (audio_file model_name : str)
    (w : world) :
  process_stream ev audio_file model_name w
  = ((stream_outcome ev).1,
     add_logs (stream_outcome ev).2
       (stream_started audio_file model_name w)).
Proof.
  unfold process_stream, stream_outcome, try_except, bind, subprocess.
  destruct (run ev) as [returncode stdout stderr|e]; cbn.
  - destruct (returncode =? 0)%Z; cbn; [|done].
    unfold add_logs. cbn. by rewrite app_nil_r.
  - by destruct e.
Qed.

Lemma send_sentences_sent (result : list str) :
  ∀ w : world,
    send_sentences result w
    = (Ok tt,
       World (files w) (runs w) (logged w)
         (sent w ++ map (Reply (py "success")) (filter (λ s, s ≠ []) result))
         (audio_buffer w) (buffer_duration w)).
Proof.
  induction result as [|sentence rest IH]; intros w.
  - cbn. rewrite app_nil_r. by destruct w.
  - cbn [send_sentences]. unfold bind at 1.
    destruct (decide (sentence ≠ [])) as [Hne|Hnil].
    + rewrite (bool_decide_eq_true_2 _ Hne), filter_cons_True by done.
      unfold send_json, modify. rewrite IH. cbn.
      by rewrite <- app_assoc.
    + rewrite (bool_decide_eq_false_2 _ Hnil), filter_cons_False by done.
      unfold ret. by rewrite IH.
Qed.

(** A flush whose samples are not empty and whose temp file is written
    ends normally, in the world [flushed]. *)
Lemma flush_written (ev : env) (w : world) :
  concat (audio_buffer w) ≠ [] →
  write ev = Written →
  flush ev w = (Ok tt, flushed ev w).
Proof.
  intros Hsamples Hwrite.
  assert (∃ m, Np.max (map Np.abs16 (concat (audio_buffer w))) = Ok m)
    as [m Hmax].
  { destruct (concat (audio_buffer w)); [done|]. cbn. eauto. }
  unfold flush.
  unfold bind at 1, gets at 1. unfold bind at 1. unfold lift at 1.
  rewrite Hmax.
  unfold bind at 1. unfold write_file at 1. rewrite Hwrite.
  unfold bind at 1. unfold try_finally at 1. unfold try_except at 1.
  unfold bind at 1. rewrite process_stream_outcome.
  unfold flushed.
  destruct (stream_outcome ev) as [[result|e] entries]; cbn [fst snd].
  - destruct result as [|sentence rest].
    + rewrite bool_decide_eq_false_2 by (intros H; by apply H).
      unfold send_json, modify. rewrite remove_if_exists_gone.
      unfold set_buffer, set_files, add_sent, add_logs, stream_started,
        add_run.
      cbn. rewrite lookup_insert_eq, delete_insert_eq, app_nil_r.
      reflexivity.
    + rewrite bool_decide_eq_true_2 by done.
      rewrite send_sentences_sent, remove_if_exists_gone.
      unfold set_buffer, set_files, add_sent, add_logs, stream_started,
        add_run.
      cbn. rewrite lookup_insert_eq, delete_insert_eq, app_nil_r.
      reflexivity.
  - unfold bind at 1. unfold logger_error, send_json, modify.
    rewrite remove_if_exists_gone.
    unfold set_buffer, set_files, add_sent, add_logs, add_log,
      stream_started, add_run.
    cbn. rewrite lookup_insert_eq, delete_insert_eq, <- app_assoc.
    reflexivity.
Qed.

(** The body of the loop on a binary message, case by case. *)
Lemma iteration_bytes (ev : env) (data : bytes) (w : world) :
  iteration ev (Bytes data) w
  = match decode data with
    | Raise e => (Raise e, w)
    | Ok f =>
        if F64.ltb (volume f) volume_threshold then (Ok tt, w)
        else if F64.leb MIN_DURATION (buffer_duration (keep f w))
             then flush ev (keep f w)
             else (Ok tt, keep f w)
    end.
Proof.
  unfold iteration, bind, receive_bytes, ret, lift, modify, gets.
  destruct (decode data) as [f|e]; [|done].
  destruct (F64.ltb (volume f) volume_threshold); [done|].
  by destruct (F64.leb MIN_DURATION (buffer_duration (keep f w))).
Qed.

(** A message the decoder accepts whose frame passes the volume test and
    brings the counter to the threshold, with samples to flush and a temp
    file that gets written. *)
Lemma iteration_crossing (ev : env) (data : bytes) (f : frame) (w : world) :
  decode data = Ok f →
  F64.ltb (volume f) volume_threshold = false →
  F64.leb MIN_DURATION (buffer_duration (keep f w)) = true →
  concat (audio_buffer w ++ [audio_data f]) ≠ [] →
  write ev = Written →
  iteration ev (Bytes data) w = (Ok tt, flushed ev (keep f w)).
Proof.
  intros Hdecode Hloud Hcrossed Hsamples Hwrite.
  rewrite iteration_bytes, Hdecode, Hloud, Hcrossed.
  by apply flush_written.
Qed.

Lemma decode_short (data : bytes) :
  (length data < 8)%nat → ∃ msg, decode data = Raise (ValueError msg).
Proof.
  intros Hshort. unfold decode.
  do 8 (destruct data as [|? data]; [cbn; eauto|]).
  cbn in Hshort. lia.
Qed.

End Streaming.

(** C5.  A frame whose mean absolute amplitude, as the loop computes it, is
    below 500 changes nothing: the iteration ends with the world it started
    in (same pending buffer, same duration, no run of the engine, no reply),
    and the loop goes on to the next message. *)
Theorem quiet_frame_ignored
    (ev : env) (data : bytes) (f : frame) (rest : list (env * recv))
    (w : world) :
  decode data = Ok f →
  F64.ltb (volume f) volume_threshold = true →
  iteration ev (Bytes data) w = (Ok tt, w)
  ∧ process_audio ((ev, Bytes data) :: rest) w = process_audio rest w.
Proof.
  intros Hdecode Hquiet.
  assert (iteration ev (Bytes data) w = (Ok tt, w)) as Hiter
    by (by rewrite iteration_bytes, Hdecode, Hquiet).
  split; [done|]. cbn [process_audio]. by rewrite Hiter.
Qed.

(** C2, as amended.  A binary message of fewer than 8 bytes makes the
    header decoding raise [ValueError]; nothing in the loop body catches
    it, so the outer handler logs it and the receive loop ends.  The pending
    buffer, the duration, the replies and the runs are as they were, and no
    later message is processed. *)
Theorem short_message_closes
    (ev : env) (data : bytes) (rest : list (env * recv)) (w : world) :
  (length data < 8)%nat →
  ∃ msg,
    decode data = Raise (ValueError msg)
    ∧ process_audio ((ev, Bytes data) :: rest) w
      = (Closed,
         add_log (LogError (py "处理音频数据时出错: " ++ exn_str (ValueError msg)))
           w).
Proof.
  intros Hshort. destruct (decode_short data Hshort) as [msg Hdecode].
  exists msg. split; [done|].
  cbn [process_audio]. by rewrite iteration_bytes, Hdecode.
Qed.

(** C3, as amended.  When an accepted frame brings the counter to 2.0 or
    more, the pending samples are not empty and the temp file gets written,
    the iteration starts the engine exactly once and ends with an empty
    pending buffer and a zero counter, whatever the engine does; the loop
    goes on to the next message. *)
Theorem crossing_frame_flushes
    (ev : env) (data : bytes) (f : frame) (rest : list (env * recv))
    (w : world) :
  decode data = Ok f →
  F64.ltb (volume f) volume_threshold = false →
  F64.leb MIN_DURATION (buffer_duration (keep f w)) = true →
  concat (audio_buffer w ++ [audio_data f]) ≠ [] →
  write ev = Written →
  ∃ w',
    process_audio ((ev, Bytes data) :: rest) w = process_audio rest w'
    ∧ runs w'
      = runs w ++ [Invocation (stream_cmd (temp_file ev) default_model)
                     (Some _whisper_path)
                     (Some (Np.raw16 (concat (audio_buffer w ++ [audio_data f]))))]
    ∧ audio_buffer w' = []
    ∧ buffer_duration w' = F64.zero.
Proof.
  intros Hdecode Hloud Hcrossed Hsamples Hwrite.
  exists (flushed ev (keep f w)). split; [|done].
  cbn [process_audio].
  by rewrite (iteration_crossing ev data f w).
Qed.

(** C7.  When the engine exits with a nonzero code during a flush,
    [process_stream] raises a [RuntimeError] that carries the captured
    stderr; the engine has been started once and is not started again; the
    session sends the one reply [{status: "error", text: ...}], empties its
    buffer and goes on to the next message. *)
Theorem engine_failure_reported
    (ev : env) (data : bytes) (f : frame) (rest : list (env * recv))
    (w : world) (returncode : Z) (stdout stderr : str) :
  decode data = Ok f →
  F64.ltb (volume f) volume_threshold = false →
  F64.leb MIN_DURATION (buffer_duration (keep f w)) = true →
  concat (audio_buffer w ++ [audio_data f]) ≠ [] →
  write ev = Written →
  run ev = Exited returncode stdout stderr →
  returncode ≠ 0%Z →
  (∀ audio_file model_name w0,
     (process_stream ev audio_file model_name w0).1
     = Raise (RuntimeError (py "Whisper处理失败: " ++ stderr)))
  ∧ ∃ w',
      process_audio ((ev, Bytes data) :: rest) w = process_audio rest w'
      ∧ sent w'
        = sent w ++ [Reply (py "error")
                       (py "处理错误: " ++ py "Whisper处理失败: " ++ stderr)]
      ∧ runs w'
        = runs w ++ [Invocation (stream_cmd (temp_file ev) default_model)
                       (Some _whisper_path)
                       (Some (Np.raw16
                                (concat (audio_buffer w ++ [audio_data f]))))]
      ∧ audio_buffer w' = []
      ∧ buffer_duration w' = F64.zero.
Proof.
  intros Hdecode Hloud Hcrossed Hsamples Hwrite Hrun Hrc. split.
  - intros audio_file model_name w0.
    by rewrite (process_stream_nonzero _ _ _ _ _ _ _ Hrun Hrc).
  - exists (flushed ev (keep f w)). split.
    { cbn [process_audio]. by rewrite (iteration_crossing ev data f w). }
    split; [|done].
    unfold flushed, stream_outcome. rewrite Hrun.
    destruct (Z.eqb_spec returncode 0) as [?|_]; [done|]. reflexivity.
Qed.

(** The theorem at four quiet samples. *)
Lemma quiet_frame_ignored_witness :
  iteration (engine_prints "hello") (Bytes (encode quiet_frame)) empty_world
  = (Ok tt, empty_world)
  ∧ process_audio [(engine_prints "hello", Bytes (encode quiet_frame))]
      empty_world
    = process_audio [] empty_world.
Proof.
  apply (quiet_frame_ignored (engine_prints "hello") (encode quiet_frame)
           quiet_frame [] empty_world).
  - vm_compute. reflexivity.
  - vm_compute. reflexivity.
Defined.

(** The theorem at a message of three bytes followed by a loud frame. *)
Lemma short_message_closes_witness :
  ∃ msg,
    decode [Byte.x01; Byte.x02; Byte.x03] = Raise (ValueError msg)
    ∧ process_audio
        [(engine_prints "hello", Bytes [Byte.x01; Byte.x02; Byte.x03]);
         (engine_prints "hello", Bytes (encode loud_frame))]
        empty_world
      = (Closed,
         add_log (LogError (py "处理音频数据时出错: " ++ exn_str (ValueError msg)))
           empty_world).
Proof.
  apply (short_message_closes (engine_prints "hello")
           [Byte.x01; Byte.x02; Byte.x03]
           [(engine_prints "hello", Bytes (encode loud_frame))] empty_world).
  cbn. lia.
Defined.

(** C2, as stated, fails: after a message of three bytes the loop is not
    waiting for the next frame, it has ended. *)
Lemma short_message_counterexample :
  (length [Byte.x01; Byte.x02; Byte.x03] < 8)%nat
  ∧ (process_audio
       [(engine_prints "hello", Bytes [Byte.x01; Byte.x02; Byte.x03])]
       empty_world).1 = Closed.
Proof. split; [cbn; lia|vm_compute; reflexivity]. Qed.

(** The theorem at a loud frame that declares two seconds, with an engine
    that fails. *)
Lemma crossing_frame_flushes_witness :
  ∃ w',
    process_audio [(engine_fails, Bytes (encode loud_frame))] empty_world
    = process_audio [] w'
    ∧ runs w'
      = runs empty_world
          ++ [Invocation (stream_cmd (temp_file engine_fails) default_model)
                (Some _whisper_path)
                (Some (Np.raw16
                         (concat (audio_buffer empty_world
                                    ++ [audio_data loud_frame]))))]
    ∧ audio_buffer w' = []
    ∧ buffer_duration w' = F64.zero.
Proof.
  apply (crossing_frame_flushes engine_fails (encode loud_frame) loud_frame []
           empty_world).
  - vm_compute. reflexivity.
  - vm_compute. reflexivity.
  - vm_compute. reflexivity.
  - vm_compute. discriminate.
  - reflexivity.
Defined.

(** C3, as stated, fails: a message that is only a header passes the
    volume test (the mean of no samples is [nan]) and declares two seconds;
    the flush then raises in [max()] before the engine is started, the
    buffer is not emptied and the loop ends. *)
Lemma header_only_counterexample :
  decode (encode header_only) = Ok header_only
  ∧ F64.ltb (volume header_only) volume_threshold = false
  ∧ F64.leb MIN_DURATION (declared_duration header_only) = true
  ∧ ∃ w',
      process_audio [(engine_prints "hello", Bytes (encode header_only))]
        (accept empty_world) = (Closed, w')
      ∧ runs w' = []
      ∧ audio_buffer w' = [[]]
      ∧ buffer_duration w' = MIN_DURATION.
Proof.
  split_and!; [vm_compute; reflexivity..|].
  eexists. split; [vm_compute; reflexivity|].
  split_and!; vm_compute; reflexivity.
Qed.

(** The theorem at a loud frame that declares two seconds, with an engine
    that exits with code 1. *)
Lemma engine_failure_reported_witness :
  (∀ audio_file model_name w0,
     (process_stream engine_fails audio_file model_name w0).1
     = Raise (RuntimeError
                (py "Whisper处理失败: " ++ py "failed to load model")))
  ∧ ∃ w',
      process_audio [(engine_fails, Bytes (encode loud_frame))] empty_world
      = process_audio [] w'
      ∧ sent w'
        = sent empty_world
            ++ [Reply (py "error")
                  (py "处理错误: " ++ py "Whisper处理失败: "
                     ++ py "failed to load model")]
      ∧ runs w'
        = runs empty_world
            ++ [Invocation (stream_cmd (temp_file engine_fails) default_model)
                  (Some _whisper_path)
                  (Some (Np.raw16
                           (concat (audio_buffer empty_world
                                      ++ [audio_data loud_frame]))))]
      ∧ audio_buffer w' = []
      ∧ buffer_duration w' = F64.zero.
Proof.
  apply (engine_failure_reported engine_fails (encode loud_frame) loud_frame []
           empty_world 1 [] (py "failed to load model")).
  - vm_compute. reflexivity.
  - vm_compute. reflexivity.
  - vm_compute. reflexivity.
  - vm_compute. discriminate.
  - reflexivity.
  - reflexivity.
  - discriminate.
Defined.

(** ** Temp files *)

Section TempFiles.

(** A flush that ran to its end has removed its temp file. *)
Lemma flushed_cleans (ev : env) (w : world) :
  files (flushed ev w) !! temp_file ev = None.
Proof. unfold flushed. cbn. apply lookup_delete_eq. Qed.


End TempFiles.


(** ** Four frames of half a second *)

Section HalfSeconds.



End HalfSeconds.



(** ** The invariant of the receive loop *)

Section Invariant.

Lemma bind_Ok_inv {A B} (m : M A) (k : A → M B) (w w' : world) (b : B) :
  bind m k w = (Ok b, w') →
  ∃ a w1, m w = (Ok a, w1) ∧ k a w1 = (Ok b, w').
Proof.
  unfold bind. destruct (m w) as [[a|e] w1]; [eauto|discriminate].
Qed.

(** A flush that ends normally has emptied the buffer and zeroed the
    counter: they are reset by its last statement. *)
Lemma flush_Ok_resets (ev : env) (w w' : world) :
  flush ev w = (Ok tt, w') →
  audio_buffer w' = [] ∧ buffer_duration w' = F64.zero.
Proof.
  unfold flush. intros Hflush.
  apply bind_Ok_inv in Hflush as (combined & w1 & _ & Hflush).
  apply bind_Ok_inv in Hflush as (m & w2 & _ & Hflush).
  apply bind_Ok_inv in Hflush as (? & w3 & _ & Hflush).
  apply bind_Ok_inv in Hflush as (? & w4 & _ & Hflush).
  unfold modify in Hflush. injection Hflush as <-. done.
Qed.

Lemma MIN_DURATION_eq :
  MIN_DURATION = S754_finite false 4503599627370496 (-51).
Proof. vm_compute. reflexivity. Qed.

(** The test [buffer_duration >= MIN_DURATION] fails only below the
    threshold or on [nan]. *)
Lemma compare_finite_antisym (m1 m2 : positive) (e1 e2 : Z) :
  SFleb (S754_finite false m1 e1) (S754_finite false m2 e2) = false →
  SFltb (S754_finite false m2 e2) (S754_finite false m1 e1) = true.
Proof.
  unfold SFleb, SFltb, SFcompare.
  rewrite (Z.compare_antisym e1 e2).
  destruct (e1 ?= e2)%Z; cbn [CompOpp]; [|done|done].
  fold (Pos.compare m1 m2). fold (Pos.compare m2 m1).
  rewrite (Pos.compare_antisym m1 m2).
  by destruct (m1 ?= m2)%positive.
Qed.

Lemma not_crossed (d : F64.float) :
  F64.leb MIN_DURATION d = false →
  F64.ltb d MIN_DURATION = true ∨ d = F64.nan.
Proof.
  rewrite MIN_DURATION_eq. unfold F64.leb, F64.ltb, F64.nan.
  destruct d as [s|s| |s m e]; [by left|by destruct s; [left|]|by right|].
  destruct s; [by left|].
  intros Hbelow. left. by apply compare_finite_antisym.
Qed.

Lemma pending_nil (w : world) :
  audio_buffer w = [] → buffer_duration w = F64.zero → pending [] w.
Proof. intros Hbuffer Hduration. split_and!; [done|done|by rewrite Hduration]. Qed.

Lemma process_audio_pending (inputs : list (env * recv)) :
  ∀ (w w' : world) (earlier held : list frame),
    pending held w →
    process_audio inputs w = (Receiving, w') →
    ∃ earlier' held',
      earlier ++ held ++ kept_frames inputs = earlier' ++ held'
      ∧ pending held' w'.
Proof.
  induction inputs as [|[ev msg] rest IH];
    intros w w' earlier held Hpending Hrun.
  - injection Hrun as <-. exists earlier, held.
    by rewrite app_nil_r.
  - cbn [process_audio] in Hrun.
    destruct msg as [data|]; [|discriminate].
    rewrite iteration_bytes in Hrun. cbn [kept_frames].
    destruct (decode data) as [f|e]; [|by destruct e].
    destruct (F64.ltb (volume f) volume_threshold); [by eapply IH|].
    destruct (F64.leb MIN_DURATION (buffer_duration (keep f w))) eqn:Hcrossed.
    + destruct (flush ev (keep f w)) as [[[]|e] w1] eqn:Hflush;
        [|by destruct e].
      apply flush_Ok_resets in Hflush as [Hbuffer Hduration].
      destruct (IH w1 w' (earlier ++ held ++ [f]) []
                  (pending_nil w1 Hbuffer Hduration) Hrun)
        as (earlier' & held' & Heq & Hpending').
      exists earlier', held'. split; [|done].
      rewrite <- Heq. by rewrite <- !app_assoc.
    + destruct (IH (keep f w) w' earlier (held ++ [f])) as
        (earlier' & held' & Heq & Hpending'); [|done|].
      * destruct Hpending as (Hbuffer & Hduration & _).
        split_and!; [| |done].
        -- cbn. by rewrite Hbuffer, map_app.
        -- cbn. unfold accumulate. rewrite fold_left_app. cbn.
           by rewrite Hduration.
      * exists earlier', held'. split; [|done].
        rewrite <- Heq. by rewrite <- !app_assoc.
Qed.

End Invariant.

(** C10, as amended.  Whenever the receive loop is waiting for the next
    frame, the test [buffer_duration >= 2.0] is false for the counter, which
    is therefore below 2.0 or [nan]; the pending buffer holds the samples of
    the most recent kept frames, and the counter is the sum, taken in
    arrival order, of [num_samples / sample_rate] over exactly those
    frames. *)
Theorem pending_invariant
    (inputs : list (env * recv)) (w w' : world) :
  process_audio inputs (accept w) = (Receiving, w') →
  F64.leb MIN_DURATION (buffer_duration w') = false
  ∧ (F64.ltb (buffer_duration w') MIN_DURATION = true
     ∨ buffer_duration w' = F64.nan)
  ∧ ∃ earlier held,
      kept_frames inputs = earlier ++ held
      ∧ audio_buffer w' = map audio_data held
      ∧ buffer_duration w' = accumulate F64.zero held.
Proof.
  intros Hrun.
  destruct (process_audio_pending inputs (accept w) w' [] [])
    as (earlier & held & Heq & Hbuffer & Hduration & Hbelow); [|done|].
  { by apply pending_nil. }
  split_and!; [done|by apply not_crossed|].
  by exists earlier, held.
Qed.

(** The theorem after a quiet frame, a loud frame that is flushed and half
    a second that is kept. *)
Lemma pending_invariant_witness :
  let inputs :=
    [(engine_prints "one", Bytes (encode quiet_frame));
     (engine_prints "two", Bytes (encode loud_frame));
     (engine_prints "three", Bytes (encode (half_second 1000)))] in
  let w' := (process_audio inputs (accept empty_world)).2 in
  F64.leb MIN_DURATION (buffer_duration w') = false
  ∧ (F64.ltb (buffer_duration w') MIN_DURATION = true
     ∨ buffer_duration w' = F64.nan)
  ∧ ∃ earlier held,
      kept_frames inputs = earlier ++ held
      ∧ audio_buffer w' = map audio_data held
      ∧ buffer_duration w' = accumulate F64.zero held.
Proof.
  intros inputs w'.
  apply (pending_invariant inputs empty_world w').
  evaluated.
Defined.

(** C10, as stated, fails: a loud frame whose header declares 0 samples at
    0 Hz adds [0 / 0 = nan] to the counter; the loop then waits for the next
    frame with a counter that is not below 2.0. *)
Lemma zero_header_counterexample :
  ∃ w',
    process_audio [(engine_prints "hello", Bytes (encode zero_header))]
      (accept empty_world) = (Receiving, w')
    ∧ audio_buffer w' = [[1000%Z]]
    ∧ F64.ltb (buffer_duration w') MIN_DURATION = false.
Proof.
  eexists. split; [vm_compute; reflexivity|].
  split; vm_compute; reflexivity.
Qed.

(** * Further properties *)

(** ** Strings *)

Section Strings.

Lemma lstrip_app (l m : str) :
  lstrip (l ++ m) = match lstrip l with [] => lstrip m | r => r ++ m end.
Proof.
  induction l as [|c l IH]; cbn [lstrip app]; [by destruct (lstrip m)|].
  destruct (is_space c); [exact IH|done].
Qed.

(** [rstrip], from the front. *)
Lemma rstrip_cons (c : N) (t : str) :
  rstrip (c :: t)
  = match rstrip t with
    | [] => if is_space c then [] else [c]
    | r => c :: r
    end.
Proof.
  unfold rstrip. cbn [rev]. rewrite lstrip_app.
  destruct (lstrip (rev t)) as [|x r] eqn:Hr.
  - cbn. by destruct (is_space c).
  - cbn [rev]. rewrite rev_app_distr. cbn.
    destruct (rev r ++ [x]) eqn:Hrev; [|done].
    by destruct (rev r).
Qed.

Lemma rstrip_idemp (t : str) : rstrip (rstrip t) = rstrip t.
Proof.
  induction t as [|c t IH]; [done|].
  rewrite rstrip_cons. destruct (rstrip t) as [|x r] eqn:Hr.
  - destruct (is_space c) eqn:Hc; [done|].
    rewrite rstrip_cons. cbn. by rewrite Hc.
  - rewrite rstrip_cons, IH. done.
Qed.

Lemma lstrip_head (s : str) :
  match lstrip s with c :: _ => is_space c = false | [] => True end.
Proof.
  induction s as [|c s IH]; cbn; [done|].
  destruct (is_space c) eqn:Hc; [exact IH|exact Hc].
Qed.

Lemma lstrip_fixed (t : str) :
  match t with c :: _ => is_space c = false | [] => True end →
  lstrip t = t.
Proof. destruct t as [|c t]; cbn; [done|]. by intros ->. Qed.

Lemma rstrip_head (t : str) :
  match t with c :: _ => is_space c = false | [] => True end →
  match rstrip t with c :: _ => is_space c = false | [] => True end.
Proof.
  destruct t as [|c t]; [done|]. intros Hc. rewrite rstrip_cons.
  destruct (rstrip t); [by rewrite Hc|done].
Qed.

(** [strip] is idempotent. *)
Lemma strip_idemp (s : str) : strip (strip s) = strip s.
Proof.
  unfold strip.
  rewrite (lstrip_fixed (rstrip (lstrip s))).
  - apply rstrip_idemp.
  - apply rstrip_head, lstrip_head.
Qed.

Lemma Forall_lstrip (P : N → Prop) (s : str) : Forall P s → Forall P (lstrip s).
Proof.
  induction 1 as [|c s Hc Hs IH]; cbn; [done|].
  destruct (is_space c); [done|by constructor].
Qed.

Lemma Forall_strip (P : N → Prop) (s : str) : Forall P s → Forall P (strip s).
Proof.
  intros Hs. unfold strip, rstrip.
  apply Forall_rev, Forall_lstrip, Forall_rev, Forall_lstrip, Hs.
Qed.

Lemma lstrip_spaces (s : str) : Forall (λ c, is_space c = true) s → lstrip s = [].
Proof. induction 1 as [|c s Hc Hs IH]; cbn; [done|]. by rewrite Hc. Qed.

Lemma strip_spaces (s : str) : Forall (λ c, is_space c = true) s → strip s = [].
Proof. intros Hs. unfold strip. by rewrite lstrip_spaces. Qed.

End Strings.

(** ** The scanning loops of [re] *)

Section Scanning.

Variable m : matcher.

(** Where the pattern cannot match, [re.sub] changes nothing. *)
Lemma re_sub_go_id (repl text : str) :
  Forall (λ c, ∀ t, m (c :: t) = None) text →
  re_sub_go m repl 0 text = text.
Proof.
  induction 1 as [|c t Hc Ht IH]; cbn [re_sub_go]; [done|].
  by rewrite Hc, IH.
Qed.

(** ... and [re.split] returns the text in one piece. *)
Lemma re_split_go_id (cur text : str) :
  Forall (λ c, ∀ t, m (c :: t) = None) text →
  re_split_go m 0 cur text = [rev cur ++ text].
Proof.
  intros Htext. revert cur.
  induction Htext as [|c t Hc Ht IH]; intros cur; cbn [re_split_go].
  - by rewrite app_nil_r.
  - rewrite Hc, IH. cbn [rev]. by rewrite <- app_assoc.
Qed.

(** The output of [re.sub] is made of code points of the text and of the
    replacement. *)
Lemma Forall_re_sub_go (P : N → Prop) (repl text : str) :
  Forall P repl → Forall P text →
  ∀ skip, Forall P (re_sub_go m repl skip text).
Proof.
  intros Hrepl. induction 1 as [|c t Hc Ht IH]; intros skip;
    cbn [re_sub_go]; [done|].
  destruct skip as [|k]; [|apply IH].
  destruct (m (c :: t)) as [[|k]|].
  - constructor; [done|apply IH].
  - apply Forall_app. split; [done|apply IH].
  - constructor; [done|apply IH].
Qed.

(** The pieces of [re.split] are made of code points of the text. *)
Lemma Forall_re_split_go (P : N → Prop) (text : str) :
  Forall P text →
  ∀ skip cur, Forall P cur →
    Forall (Forall P) (re_split_go m skip cur text).
Proof.
  induction 1 as [|c t Hc Ht IH]; intros skip cur Hcur; cbn [re_split_go].
  - constructor; [by apply Forall_rev|done].
  - destruct skip as [|k]; [|by apply IH].
    destruct (m (c :: t)) as [[|k]|].
    + apply IH. by constructor.
    + constructor; [by apply Forall_rev|]. by apply IH.
    + apply IH. by constructor.
Qed.

End Scanning.

(** ** More on the sanitizer *)

Section CleanSentences.

Lemma clean_first_occurrences (text : str) :
  _clean_whisper_output text = first_occurrences (candidate_sentences text).
Proof.
  unfold _clean_whisper_output, candidate_sentences.
  rewrite dedup_loop_first_occurrences. cbn [app].
  apply filter_all. intros x. apply not_elem_of_empty.
Qed.

Lemma elem_of_first_occurrences (l : list str) (s : str) :
  s ∈ first_occurrences l → s ∈ l.
Proof.
  induction l as [|x l IH]; cbn [first_occurrences]; [done|].
  intros [->|Hs]%elem_of_cons; [left|right].
  apply IH. by apply list_elem_of_filter in Hs as [_ Hs].
Qed.

Lemma Forall_split_go (sep : N) (text : str) :
  ∀ cur, Forall (λ c, c ≠ sep) cur →
    Forall (Forall (λ c, c ≠ sep)) (split_go sep cur text).
Proof.
  induction text as [|c t IH]; intros cur Hcur; cbn [split_go].
  - constructor; [by apply Forall_rev|done].
  - destruct (N.eqb_spec c sep) as [->|Hc].
    + constructor; [by apply Forall_rev|]. by apply IH.
    + apply IH. by constructor.
Qed.

Lemma Forall_join (P : N → Prop) (sep : str) (parts : list str) :
  Forall P sep → Forall (Forall P) parts → Forall P (join sep parts).
Proof.
  intros Hsep. induction 1 as [|p rest Hp Hrest IH]; cbn [join]; [done|].
  destruct rest as [|q rest]; [done|].
  apply Forall_app. split; [done|]. apply Forall_app. by split.
Qed.

Lemma flatten_lines_no_newline (text : str) :
  Forall (λ c, c ≠ 10) (flatten_lines text).
Proof.
  unfold flatten_lines. apply Forall_join.
  - by repeat constructor.
  - apply Forall_forall. intros line [_ Hline]%list_elem_of_filter.
    apply list_elem_of_fmap in Hline as (piece & -> & Hpiece).
    apply Forall_strip.
    assert (Forall (Forall (λ c, c ≠ 10)) (split 10 text)) as Hsplit
      by (by apply Forall_split_go).
    by eapply Forall_forall in Hsplit.
Qed.

(** The pieces between matches of the terminator pattern hold no
    terminator. *)
Lemma split_terminators_free (text : str) :
  ∀ skip cur, Forall (λ c, is_terminator c = false) cur →
    Forall (Forall (λ c, is_terminator c = false))
      (re_split_go match_terminators skip cur text).
Proof.
  induction text as [|c t IH]; intros skip cur Hcur; cbn [re_split_go].
  - constructor; [by apply Forall_rev|done].
  - destruct skip as [|k]; [|by apply IH].
    unfold match_terminators. cbn [span_len].
    destruct (is_terminator c) eqn:Hc.
    + constructor; [by apply Forall_rev|]. by apply IH.
    + apply IH. by constructor.
Qed.

Lemma split_go_id (sep : N) (text : str) :
  Forall (λ c, c ≠ sep) text →
  ∀ cur, split_go sep cur text = [rev cur ++ text].
Proof.
  induction 1 as [|c t Hc Ht IH]; intros cur; cbn [split_go].
  - by rewrite app_nil_r.
  - destruct (N.eqb_spec c sep) as [?|_]; [done|].
    rewrite IH. cbn [rev]. by rewrite <- app_assoc.
Qed.

(** Every sentence of the result is a stripped, non-empty piece of the
    flattened text. *)
Lemma clean_sentence_origin (text s : str) :
  s ∈ _clean_whisper_output text →
  s ≠ []
  ∧ ∃ flat piece,
      Forall (λ c, c ≠ 10) flat
      ∧ piece ∈ re_split match_terminators flat
      ∧ s = strip piece.
Proof.
  rewrite clean_first_occurrences.
  intros Hs%elem_of_first_occurrences. unfold candidate_sentences in Hs.
  apply list_elem_of_filter in Hs as [Hne Hs].
  apply list_elem_of_fmap in Hs as (piece & -> & Hpiece).
  split; [done|]. eexists _, piece. split_and!; [|exact Hpiece|done].
  apply flatten_lines_no_newline.
Qed.

End CleanSentences.

(** X1.  Every sentence returned by the sanitizer is non-empty and carries
    no surrounding whitespace: stripping it again changes nothing. *)
Theorem clean_sentences_stripped (text s : str) :
  s ∈ _clean_whisper_output text →
  s ≠ [] ∧ strip s = s.
Proof.
  intros (Hne & flat & piece & _ & _ & ->)%clean_sentence_origin.
  split; [done|apply strip_idemp].
Qed.

(** The theorem at the second sentence of a two-line output. *)
Lemma clean_sentences_stripped_witness :
  py "two" ≠ [] ∧ strip (py "two") = py "two".
Proof.
  apply (clean_sentences_stripped (py " one. " ++ [10] ++ py "  two ! ")).
  vm_compute. apply list_elem_of_In. cbn. tauto.
Defined.

(** X2.  No sentence returned by the sanitizer holds a sentence terminator
    or a newline. *)
Theorem clean_sentences_plain (text s : str) :
  s ∈ _clean_whisper_output text →
  Forall (λ c, is_terminator c = false ∧ c ≠ 10) s.
Proof.
  intros (_ & flat & piece & Hflat & Hpiece & ->)%clean_sentence_origin.
  apply Forall_strip, Forall_and. split.
  - assert (Forall (Forall (λ c, is_terminator c = false))
              (re_split match_terminators flat)) as Hfree
      by (by apply split_terminators_free).
    by eapply Forall_forall in Hfree.
  - assert (Forall (Forall (λ c, c ≠ 10)) (re_split match_terminators flat))
      as Hlines by (by apply Forall_re_split_go).
    by eapply Forall_forall in Hlines.
Qed.

(** The theorem at the second sentence of a two-line output. *)
Lemma clean_sentences_plain_witness :
  Forall (λ c, is_terminator c = false ∧ c ≠ 10) (py "two").
Proof.
  apply (clean_sentences_plain (py " one. " ++ [10] ++ py "  two ! ")).
  vm_compute. apply list_elem_of_In. cbn. tauto.
Defined.

(** X3.  A text that is already one clean sentence (not empty, no ESC, no
    opening bracket, no newline, no terminator, no surrounding whitespace)
    comes back unchanged, as the only sentence. *)
Theorem clean_plain_sentence (text : str) :
  text ≠ [] →
  Forall plain text →
  strip text = text →
  _clean_whisper_output text = [text].
Proof.
  intros Hne Hplain Hstrip. unfold _clean_whisper_output, re_sub, re_split.
  rewrite (re_sub_go_id match_ansi [] text); cycle 1.
  { eapply Forall_impl; [exact Hplain|]. intros c (Hesc & _) t.
    unfold match_ansi. destruct t as [|c1 t]; [done|].
    destruct (N.eqb_spec c 27) as [?|_]; done. }
  rewrite (re_sub_go_id match_bracket [] text); cycle 1.
  { eapply Forall_impl; [exact Hplain|]. intros c (_ & Hopen & _) t.
    unfold match_bracket. destruct (N.eqb_spec c 91) as [?|_]; done. }
  rewrite (re_sub_go_id match_blank [10] text); cycle 1.
  { eapply Forall_impl; [exact Hplain|]. intros c (_ & _ & Hnl & _) t.
    unfold match_blank. destruct (N.eqb_spec c 10) as [?|_]; done. }
  rewrite Hstrip. unfold flatten_lines, split.
  rewrite split_go_id; cycle 1.
  { eapply Forall_impl; [exact Hplain|]. by intros c (_ & _ & Hnl & _). }
  cbn [rev app map]. rewrite Hstrip.
  rewrite filter_cons_True, filter_nil by done. cbn [join].
  rewrite re_split_go_id; cycle 1.
  { eapply Forall_impl; [exact Hplain|]. intros c (_ & _ & _ & Hterm) t.
    unfold match_terminators. cbn [span_len]. by rewrite Hterm. }
  cbn [rev app dedup_loop]. rewrite Hstrip.
  rewrite bool_decide_eq_true_2 by done.
  rewrite bool_decide_eq_true_2 by apply not_elem_of_empty.
  reflexivity.
Qed.

(** The theorem at "hello world". *)
Lemma clean_plain_sentence_witness :
  _clean_whisper_output (py "hello world") = [py "hello world"].
Proof.
  apply (clean_plain_sentence (py "hello world")).
  - vm_compute. discriminate.
  - vm_compute. repeat constructor; discriminate.
  - vm_compute. reflexivity.
Defined.

(** X4.  A text of nothing but whitespace, the empty text included, has no
    sentence. *)
Theorem clean_blank (text : str) :
  Forall (λ c, is_space c = true) text →
  _clean_whisper_output text = [].
Proof.
  intros Hblank. unfold _clean_whisper_output, re_sub.
  rewrite strip_spaces; [vm_compute; reflexivity|].
  apply Forall_re_sub_go; [by repeat constructor|].
  apply Forall_re_sub_go; [done|].
  by apply Forall_re_sub_go.
Qed.

(** The theorem at two blank lines. *)
Lemma clean_blank_witness :
  _clean_whisper_output [32; 10; 9; 10; 32] = [].
Proof.
  apply (clean_blank [32; 10; 9; 10; 32]).
  repeat constructor.
Defined.

(** ** More on the engine wrappers *)


Section SingleShot.

Variables (ev : env) (wav_file model_name : str) (w : world).

(** [process_audio], case by case. *)
Lemma process_audio_cases :
  VoiceService.process_audio ev wav_file model_name w
  = match files w !! wav_file, files w !! model_path_of model_name with
    | None, _ =>
        (Raise (RuntimeError
                  (py "音频处理失败: "
                     ++ exn_str (FileNotFoundError
                                   (py "音频文件不存在: " ++ wav_file)))), w)
    | Some _, None =>
        (Raise (RuntimeError
                  (py "音频处理失败: "
                     ++ exn_str (FileNotFoundError
                                   (py "模型文件不存在: "
                                      ++ model_path_of model_name)))), w)
    | Some _, Some _ =>
        match run ev with
        | SpawnFailed e =>
            (Raise (RuntimeError (py "音频处理失败: " ++ exn_str e)),
             main_started wav_file model_name w)
        | Exited returncode stdout stderr =>
            if (returncode =? 0)%Z then
              (Ok (if bool_decide (strip stdout = [])
                   then py "未检测到语音内容"
                   else if bool_decide (strip stdout = BLANK_AUDIO)
                        then py "检测到空白音频"
                        else strip (replace BLANK_AUDIO [] (strip stdout))),
               main_started wav_file model_name w)
            else
              (Raise (RuntimeError
                        (py "音频处理失败: "
                           ++ exn_str
                                (RuntimeError
                                   (py "Whisper处理失败 (返回码: "
                                      ++ str_of_int returncode
                                      ++ py "): " ++ stderr)))),
               main_started wav_file model_name w)
        end
    end.
Proof.
  unfold main_started, model_path_of.
  unfold VoiceService.process_audio, try_except.
  unfold bind at 1. unfold os_path_exists at 1, gets at 1.
  destruct (files w !! wav_file) as [content|] eqn:Hwav.
  - rewrite bool_decide_eq_true_2 by eauto.
    unfold bind at 1, ret at 1. unfold bind at 1.
    unfold os_path_exists at 1, gets at 1.
    destruct (files w !! os_path_join _ model_name) as [model|] eqn:Hmodel.
    + rewrite bool_decide_eq_true_2 by eauto.
      unfold bind at 1, ret at 1. unfold bind at 1. unfold subprocess at 1.
      rewrite Hwav.
      destruct (run ev) as [returncode stdout stderr|e]; [|reflexivity].
      destruct (returncode =? 0)%Z; [|reflexivity].
      unfold bind at 1, ret at 1.
      destruct (bool_decide (strip stdout = [])); [done|].
      by destruct (bool_decide (strip stdout = BLANK_AUDIO)).
    + rewrite bool_decide_eq_false_2 by (intros [? ?]; congruence).
      reflexivity.
  - rewrite bool_decide_eq_false_2 by (intros [? ?]; congruence).
    reflexivity.
Qed.

End SingleShot.

(** X6.  When the audio file or the model file is missing, [process_audio]
    fails with a [RuntimeError] that names the missing path, and the engine
    is not started: the world is as it was. *)
Theorem process_audio_missing
    (ev : env) (wav_file model_name : str) (w : world) :
  files w !! wav_file = None ∨ files w !! model_path_of model_name = None →
  ∃ found path,
    VoiceService.process_audio ev wav_file model_name w
    = (Raise (RuntimeError (py "音频处理失败: " ++ found ++ path)), w)
    ∧ (found = py "音频文件不存在: " ∧ path = wav_file
       ∨ found = py "模型文件不存在: " ∧ path = model_path_of model_name).
Proof.
  intros Hmissing. rewrite process_audio_cases.
  destruct (files w !! wav_file) as [content|].
  - destruct Hmissing as [?| ->]; [done|].
    eexists _, _. split; [reflexivity|]. by right.
  - eexists _, _. split; [reflexivity|]. by left.
Qed.

(** The theorem with nothing on disk. *)
Lemma process_audio_missing_witness :
  ∃ found path,
    VoiceService.process_audio (engine_prints "hello") (py "a.wav")
      default_model empty_world
    = (Raise (RuntimeError (py "音频处理失败: " ++ found ++ path)), empty_world)
    ∧ (found = py "音频文件不存在: " ∧ path = py "a.wav"
       ∨ found = py "模型文件不存在: " ∧ path = model_path_of default_model).
Proof.
  apply (process_audio_missing (engine_prints "hello") (py "a.wav")
           default_model empty_world).
  left. reflexivity.
Defined.

(** X7.  [process_audio] raises nothing but [RuntimeError], with a message
    that starts with "音频处理失败: "; it starts the engine at most once and
    changes nothing else; it returns a text only after a run that exited
    with code 0. *)
Theorem process_audio_contained
    (ev : env) (wav_file model_name : str) (w : world) :
  ∃ r w',
    VoiceService.process_audio ev wav_file model_name w = (r, w')
    ∧ (w' = w ∨ w' = main_started wav_file model_name w)
    ∧ match r with
      | Ok _ =>
          w' = main_started wav_file model_name w
          ∧ ∃ stdout stderr, run ev = Exited 0 stdout stderr
      | Raise e => ∃ msg, e = RuntimeError (py "音频处理失败: " ++ msg)
      end.
Proof.
  rewrite process_audio_cases.
  destruct (files w !! wav_file) as [content|]; [|by eexists _, _; eauto].
  destruct (files w !! model_path_of model_name) as [model|];
    [|by eexists _, _; eauto].
  destruct (run ev) as [returncode stdout stderr|e];
    [|by eexists _, _; eauto].
  destruct (Z.eqb_spec returncode 0) as [->|Hrc]; eexists _, _; eauto 10.
Qed.

(** ** [/api/listen] *)

Section Listen.

Lemma listen_returns (ev : env) (w : world) :
  ∃ t d w',
    VoiceService.listen ev w = (Ok (t, d), w')
    ∧ (∀ wav, recording ev = Recorded wav →
         files w' !! transcribed_file = None)
    ∧ (∀ e, recording ev = MicrophoneFailed e →
         t = py "识别错误: " ++ exn_str e ∧ d = F64.zero)
    ∧ (∀ e, recording ev = ListenFailed e →
         t = py "录音错误: " ++ exn_str e ∧ d = F64.zero).
Proof.
  unfold VoiceService.listen. fold transcribed_file.
  unfold try_except at 1.
  destruct (recording ev) as [wav| |e|e].
  - unfold try_except at 1. unfold bind at 1, write_file at 1.
    assert (∀ (t : str) (d : F64.float) (w1 : world),
              ∃ t0 d0 w',
                (Ok (t, d), set_files (delete transcribed_file (files w1)) w1)
                = (Ok (t0, d0), w')
                ∧ (∀ wav0 : bytes, Recorded wav = Recorded wav0 →
                     files w' !! transcribed_file = None)
                ∧ (∀ e, Recorded wav = MicrophoneFailed e →
                     t0 = py "识别错误: " ++ exn_str e ∧ d0 = F64.zero)
                ∧ (∀ e, Recorded wav = ListenFailed e →
                     t0 = py "录音错误: " ++ exn_str e ∧ d0 = F64.zero))
      as Hdone.
    { intros t d w1. eexists _, _, _. split; [reflexivity|].
      split_and!; [|done|done]. intros _ _. apply lookup_delete_eq. }
    destruct (write ev) as [|[partial|] e].
    + unfold bind at 1.
      destruct (VoiceService.process_audio ev transcribed_file default_model _)
        as [[t|e] w1].
      * unfold bind at 1. rewrite remove_if_exists_gone. apply Hdone.
      * unfold bind at 1, logger_error at 1, modify at 1. unfold bind at 1.
        rewrite remove_if_exists_gone. apply Hdone.
    + unfold bind at 1, logger_error at 1, modify at 1. unfold bind at 1.
      rewrite remove_if_exists_gone. apply Hdone.
    + unfold bind at 1, logger_error at 1, modify at 1. unfold bind at 1.
      rewrite remove_if_exists_gone. apply Hdone.
  - eexists _, _, _. split; [reflexivity|]. by split_and!.
  - eexists _, _, _. split; [reflexivity|]. split_and!; [done|done|].
    by intros ? [= <-].
  - eexists _, _, _. split; [reflexivity|]. split_and!; [done| |done].
    by intros ? [= <-].
Qed.

End Listen.

(** X8.  [/api/listen] never fails: whatever the microphone, the disk and
    the engine do, the handler answers with status [success], and a failure
    is reported in the text.  After a recording, the file it was saved to is
    gone. *)
Theorem listen_always_succeeds (ev : env) (w : world) :
  ∃ r w',
    Main.listen ev w = (Ok r, w')
    ∧ status r = py "success"
    ∧ (∀ wav, recording ev = Recorded wav →
         files w' !! transcribed_file = None)
    ∧ (∀ e, recording ev = MicrophoneFailed e →
         text r = py "识别错误: " ++ exn_str e ∧ duration r = F64.zero)
    ∧ (∀ e, recording ev = ListenFailed e →
         text r = py "录音错误: " ++ exn_str e ∧ duration r = F64.zero).
Proof.
  destruct (listen_returns ev w) as (t & d & w' & Hlisten & Hgone & Hmic & Hrec).
  unfold Main.listen, try_except, bind. rewrite Hlisten.
  eexists _, w'. split; [reflexivity|]. by split_and!.
Qed.

(** X9.  A recording made while the model file is missing is answered
    with status [success] and the chain of error texts; the engine is not
    started and the recording is removed. *)
Theorem listen_model_missing (ev : env) (w : world) (wav : bytes) :
  recording ev = Recorded wav →
  write ev = Written →
  files w !! model_path_of default_model = None →
  ∃ w',
    Main.listen ev w
    = (Ok {| text := py "处理错误: " ++ py "音频处理失败: "
                       ++ py "模型文件不存在: " ++ model_path_of default_model;
             duration := F64.zero;
             status := py "success" |}, w')
    ∧ runs w' = runs w
    ∧ files w' = delete transcribed_file (files w).
Proof.
  intros Hrec Hwrite Hmodel.
  assert (model_path_of default_model ≠ transcribed_file) as Hne
    by (vm_compute; discriminate).
  unfold Main.listen, VoiceService.listen. fold transcribed_file.
  unfold try_except at 1. unfold bind at 1. unfold try_except at 1.
  rewrite Hrec. unfold try_except at 1. unfold bind at 1, write_file at 1.
  rewrite Hwrite. unfold bind at 1.
  rewrite process_audio_cases. cbn [files set_files].
  rewrite lookup_insert_eq, lookup_insert_ne, Hmodel by done.
  unfold bind at 1, logger_error at 1, modify at 1. unfold bind at 1.
  rewrite remove_if_exists_gone.
  eexists. split; [reflexivity|].
  cbn [runs files set_files add_log]. split; [done|].
  apply delete_insert_eq.
Qed.

(** The theorem with nothing on disk. *)
Lemma listen_model_missing_witness :
  ∃ w',
    Main.listen (engine_prints "hello") empty_world
    = (Ok {| text := py "处理错误: " ++ py "音频处理失败: "
                       ++ py "模型文件不存在: " ++ model_path_of default_model;
             duration := F64.zero;
             status := py "success" |}, w')
    ∧ runs w' = runs empty_world
    ∧ files w' = delete transcribed_file (files empty_world).
Proof.
  apply (listen_model_missing (engine_prints "hello") empty_world []).
  - reflexivity.
  - reflexivity.
  - reflexivity.
Defined.

(** ** Computations that keep a relation *)

Section Keeps.

Variable R : world → world → Prop.
Hypothesis R_refl : ∀ w, R w w.
Hypothesis R_trans : ∀ w1 w2 w3, R w1 w2 → R w2 w3 → R w1 w3.




Lemma keeps_gets {A} (f : world → A) : keeps R (gets f).
Proof. intros w. apply R_refl. Qed.

Lemma keeps_modify (f : world → world) :
  (∀ w, R w (f w)) → keeps R (modify f).
Proof. intros Hf w. apply Hf. Qed.




End Keeps.

Section OtherFiles.

Variable path : str.








End OtherFiles.

Section Upload.

Variables (ev : env) (file : bytes) (model : str) (w : world).


End Upload.


Section Inversion.

Lemma try_except_Ok_inv {A} (body : M A) (handler : exn → M A)
    (w w' : world) (a : A) :
  try_except body handler w = (Ok a, w') →
  body w = (Ok a, w')
  ∨ ∃ e w1, body w = (Raise e, w1) ∧ handler e w1 = (Ok a, w').
Proof.
  unfold try_except. destruct (body w) as [[a0|e] w1]; [by left|].
  intros Hhandler. right. by exists e, w1.
Qed.

Lemma try_except_Raise_inv {A} (body : M A) (handler : exn → M A)
    (w w' : world) (e : exn) :
  try_except body handler w = (Raise e, w') →
  ∃ e0 w1, body w = (Raise e0, w1) ∧ handler e0 w1 = (Raise e, w').
Proof.
  unfold try_except. destruct (body w) as [[a0|e0] w1]; [done|].
  intros Hhandler. by exists e0, w1.
Qed.

Lemma try_finally_inv {A} (body : M A) (cleanup : M unit)
    (w w' : world) (r : result A) :
  (∀ w1, ∃ w2, cleanup w1 = (Ok tt, w2)) →
  try_finally body cleanup w = (r, w') →
  ∃ w1, body w = (r, w1).
Proof.
  intros Hcleanup. unfold try_finally.
  destruct (body w) as [r0 w1]. destruct (Hcleanup w1) as [w2 ->].
  intros [= -> _]. by exists w1.
Qed.

Lemma log_and_raise {A} (msg : str) (e : exn) (w : world) :
  (logger_error msg;;; raise (A := A) e) w = (Raise e, add_log (LogError msg) w).
Proof. reflexivity. Qed.

End Inversion.

(** X11.  [/api/recognize] has two outcomes only: the reply
    [{text: "", status: "no_text"}], or an [HTTPException] with status 500.
    It never answers with status [success]. *)
Theorem recognize_audio_outcomes
    (ev : env) (file : bytes) (model : str) (w : world) :
  match (recognize_audio ev file model w).1 with
  | Ok r => text r = [] ∧ status r = py "no_text" ∧ duration r = elapsed ev
  | Raise (HTTPException status_code _) => status_code = 500%Z
  | Raise _ => False
  end.
Proof.
  destruct (recognize_audio ev file model w) as [r w'] eqn:Hrun.
  unfold recognize_audio in Hrun.
  apply try_finally_inv in Hrun as [w1 Hbody]; cycle 1.
  { intros w1. unfold try_except. rewrite remove_if_exists_gone. eauto. }
  cbn [fst]. destruct r as [r|e].
  - apply try_except_Ok_inv in Hbody as [Hbody|(e & w2 & _ & Hraise)];
      [|by rewrite log_and_raise in Hraise].
    apply bind_Ok_inv in Hbody as (? & w2 & _ & Hbody).
    apply try_except_Ok_inv in Hbody as [Hbody|(e & w3 & _ & Hraise)];
      [|by rewrite log_and_raise in Hraise].
    apply bind_Ok_inv in Hbody as (sentences & w3 & _ & Hbody).
    apply bind_Ok_inv in Hbody as (blank & w4 & _ & Hbody).
    destruct blank.
    + apply bind_Ok_inv in Hbody as (? & w5 & _ & Hbody).
      by injection Hbody as <- _.
    + discriminate Hbody.
  - apply try_except_Raise_inv in Hbody as (e0 & w2 & _ & Hraise).
    rewrite log_and_raise in Hraise. by injection Hraise as <- _.
Qed.

(** ** The model catalogue *)

Section Catalogue.

Lemma collect_models_sound (listing : list str) :
  ∀ (models : gmap str str) (k v : str),
    collect_models listing models !! k = Some v →
    models !! k = Some v
    ∨ ∃ file,
        file ∈ listing
        ∧ starts_with (py "ggml-") file && ends_with (py ".bin") file = true
        ∧ k = model_key file
        ∧ v = os_path_join _model_dir file.
Proof.
  induction listing as [|file rest IH]; intros models k v Hk;
    cbn [collect_models] in Hk; [by left|].
  destruct (starts_with (py "ggml-") file && ends_with (py ".bin") file)
    eqn:Hfile.
  - apply IH in Hk as [Hk|(file' & Hin & Hcond & -> & ->)].
    + destruct (decide (k = model_key file)) as [->|Hne].
      * rewrite lookup_insert_eq in Hk. injection Hk as <-.
        right. exists file. split_and!; [left|done..].
      * rewrite lookup_insert_ne in Hk by done. by left.
    + right. exists file'. split_and!; [by right|done..].
  - apply IH in Hk as [Hk|(file' & Hin & Hcond & -> & ->)]; [by left|].
    right. exists file'. split_and!; [by right|done..].
Qed.

Lemma collect_models_keeps (listing : list str) :
  ∀ (models : gmap str str) (k : str),
    is_Some (models !! k) → is_Some (collect_models listing models !! k).
Proof.
  induction listing as [|file rest IH]; intros models k Hk;
    cbn [collect_models]; [done|].
  destruct (starts_with (py "ggml-") file && ends_with (py ".bin") file);
    [|by apply IH].
  apply IH, lookup_insert_is_Some'. by right.
Qed.

Lemma collect_models_complete (listing : list str) :
  ∀ (models : gmap str str) (file : str),
    file ∈ listing →
    starts_with (py "ggml-") file && ends_with (py ".bin") file = true →
    is_Some (collect_models listing models !! model_key file).
Proof.
  induction listing as [|file0 rest IH]; intros models file Hin Hfile;
    [by apply elem_of_nil in Hin|].
  cbn [collect_models]. apply elem_of_cons in Hin as [->|Hin].
  - rewrite Hfile. apply collect_models_keeps, lookup_insert_is_Some'.
    by left.
  - destruct (starts_with (py "ggml-") file0 && ends_with (py ".bin") file0);
      by apply IH.
Qed.

Lemma starts_with_app (old rest : str) : starts_with old (old ++ rest) = true.
Proof.
  induction old as [|c old IH]; cbn [starts_with app]; [done|].
  by rewrite N.eqb_refl, IH.
Qed.

Lemma re_sub_go_skip (m : matcher) (repl l rest : str) :
  re_sub_go m repl (length l) (l ++ rest) = re_sub_go m repl 0 rest.
Proof. induction l as [|c l IH]; [done|exact IH]. Qed.

(** A leading occurrence is replaced. *)
Lemma replace_prefix (old new rest : str) :
  old ≠ [] →
  replace old new (old ++ rest) = new ++ replace old new rest.
Proof.
  destruct old as [|c old]; [done|]. intros _.
  unfold replace, re_sub. cbn [re_sub_go app].
  unfold match_literal at 1.
  change (c :: old ++ rest) with ((c :: old) ++ rest).
  rewrite starts_with_app. cbn [length].
  by rewrite re_sub_go_skip.
Qed.

(** Without an occurrence nothing is replaced. *)
Lemma replace_absent (old new text : str) :
  absent old text = true → replace old new text = text.
Proof.
  unfold replace, re_sub.
  induction text as [|c t IH]; cbn [absent re_sub_go]; [done|].
  intros [Hhead Hrest]%andb_true_iff. unfold match_literal at 1.
  apply negb_true_iff in Hhead. rewrite Hhead. by rewrite IH.
Qed.

(** An occurrence at the very end, and no other, is cut off. *)
Lemma replace_only_at_end (old name : str) :
  old ≠ [] →
  only_at_end old name = true →
  replace old [] (name ++ old) = name.
Proof.
  intros Hold. induction name as [|c n IH]; cbn [only_at_end].
  - intros _. cbn [app]. rewrite <- (app_nil_r old) at 2.
    by rewrite replace_prefix.
  - intros [Hhead Hrest]%andb_true_iff. apply negb_true_iff in Hhead.
    unfold replace, re_sub in *. cbn [re_sub_go app].
    unfold match_literal at 1.
    change (c :: n ++ old) with ((c :: n) ++ old). rewrite Hhead.
    by rewrite IH.
Qed.

Lemma model_key_of_name (name : str) :
  absent (py "ggml-") (name ++ py ".bin") = true →
  only_at_end (py ".bin") name = true →
  model_key (py "ggml-" ++ name ++ py ".bin") = name.
Proof.
  intros Habsent Hend. unfold model_key.
  rewrite replace_prefix by (vm_compute; discriminate).
  cbn [app]. rewrite (replace_absent _ _ _ Habsent).
  apply replace_only_at_end; [vm_compute; discriminate|done].
Qed.

Lemma model_file_name (name : str) :
  starts_with (py "ggml-") (py "ggml-" ++ name ++ py ".bin")
  && ends_with (py ".bin") (py "ggml-" ++ name ++ py ".bin") = true.
Proof.
  rewrite starts_with_app. unfold ends_with.
  rewrite !rev_app_distr, <- app_assoc. by rewrite starts_with_app.
Qed.

End Catalogue.

(** X12.  [get_available_models] never fails.  When the directory cannot
    be listed the catalogue is empty and the error is logged.  Otherwise
    every entry maps the key of a listed file that starts with "ggml-" and
    ends with ".bin" to that file's path in the model directory, and every
    such file has its key in the catalogue. *)
Theorem get_available_models_catalogue
    (listing : result (list str)) (w : world) :
  ∃ catalogue w',
    get_available_models listing w = (Ok catalogue, w')
    ∧ match listing with
      | Raise e =>
          catalogue = ∅
          ∧ w' = add_log (LogError (py "Error listing models: " ++ exn_str e)) w
      | Ok listed =>
          w' = w
          ∧ (∀ k v, catalogue !! k = Some v →
               ∃ file,
                 file ∈ listed
                 ∧ starts_with (py "ggml-") file
                   && ends_with (py ".bin") file = true
                 ∧ k = model_key file
                 ∧ v = os_path_join _model_dir file)
          ∧ (∀ file,
               file ∈ listed →
               starts_with (py "ggml-") file
               && ends_with (py ".bin") file = true →
               is_Some (catalogue !! model_key file))
      end.
Proof.
  destruct listing as [listed|e].
  - exists (collect_models listed ∅), w. split; [reflexivity|].
    split_and!; [done| |].
    + intros k v Hk. by apply collect_models_sound in Hk as [Hk|Hk].
    + intros file. apply collect_models_complete.
  - eexists _, _. split; [reflexivity|]. done.
Qed.

(** X13.  A file named "ggml-<name>.bin", where "ggml-" and ".bin" occur
    nowhere else in the name, is listed under the key <name>, with the path
    of a file of that key; that file's own path is the one
    [check_model_exists] looks up for <name>. *)
Theorem model_name_round_trip
    (name : str) (listed : list str) (w : world) :
  absent (py "ggml-") (name ++ py ".bin") = true →
  only_at_end (py ".bin") name = true →
  (py "ggml-" ++ name ++ py ".bin") ∈ listed →
  model_key (py "ggml-" ++ name ++ py ".bin") = name
  ∧ (∃ catalogue file,
       get_available_models (Ok listed) w = (Ok catalogue, w)
       ∧ catalogue !! name = Some (os_path_join _model_dir file)
       ∧ file ∈ listed
       ∧ model_key file = name)
  ∧ check_model_exists name w
    = (Ok (bool_decide
             (is_Some (files w !! os_path_join _model_dir
                                    (py "ggml-" ++ name ++ py ".bin")))), w).
Proof.
  intros Habsent Hend Hin.
  pose proof (model_key_of_name name Habsent Hend) as Hkey.
  split_and!; [done| |reflexivity].
  destruct (collect_models_complete listed ∅ _ Hin (model_file_name name))
    as [v Hv].
  rewrite Hkey in Hv.
  destruct (collect_models_sound listed ∅ name v Hv)
    as [?|(file & Hfile & _ & Hname & ->)]; [done|].
  by exists (collect_models listed ∅), file.
Qed.

(** The theorem at "tiny.en" in a directory of three entries. *)
Lemma model_name_round_trip_witness :
  model_key (py "ggml-" ++ py "tiny.en" ++ py ".bin") = py "tiny.en"
  ∧ (∃ catalogue file,
       get_available_models
         (Ok [py "README.md"; py "ggml-tiny.en.bin"; py "ggml-base.bin"])
         empty_world
       = (Ok catalogue, empty_world)
       ∧ catalogue !! py "tiny.en" = Some (os_path_join _model_dir file)
       ∧ file ∈ [py "README.md"; py "ggml-tiny.en.bin"; py "ggml-base.bin"]
       ∧ model_key file = py "tiny.en")
  ∧ check_model_exists (py "tiny.en") empty_world
    = (Ok (bool_decide
             (is_Some (files empty_world
                         !! os_path_join _model_dir
                              (py "ggml-" ++ py "tiny.en" ++ py ".bin")))),
       empty_world).
Proof.
  apply (model_name_round_trip (py "tiny.en")
           [py "README.md"; py "ggml-tiny.en.bin"; py "ggml-base.bin"]
           empty_world).
  - vm_compute. reflexivity.
  - vm_compute. reflexivity.
  - vm_compute. apply list_elem_of_In. cbn. tauto.
Defined.

(** ** More on the frame decoder *)

Arguments Np.to_signed : simpl never.
Arguments Np.le_unsigned : simpl never.
Arguments Np.byte_of : simpl never.

Section Decoder.

Lemma even_mod2 (n : nat) : (n mod 2 =? 0)%nat = Nat.even n.
Proof.
  assert ((n mod 2 =? 0)%nat = Nat.even n
          ∧ (S n mod 2 =? 0)%nat = Nat.even (S n)) as [Hn _]; [|done].
  induction n as [|n [IH0 IH1]]; [done|]. split; [done|].
  replace (S (S n)) with (n + 1 * 2)%nat at 1 by lia.
  by rewrite Nat.Div0.mod_add.
Qed.

Lemma items_length (size count : nat) :
  ∀ data, length (Np.items size count data) = count.
Proof. induction count as [|count IH]; intros data; cbn; [done|]. by rewrite IH. Qed.

Lemma frombuffer_int16 (payload : bytes) :
  Np.frombuffer 2 payload
  = if Nat.even (length payload)
    then Ok (Np.items 2 (length payload / 2) payload)
    else Raise (ValueError
                  (py "buffer size must be a multiple of element size")).
Proof. unfold Np.frombuffer. by rewrite even_mod2. Qed.

(** [decode] on a message of at least eight bytes. *)
Lemma decode_long (b0 b1 b2 b3 b4 b5 b6 b7 : Byte.byte) (payload : bytes) :
  decode (b0 :: b1 :: b2 :: b3 :: b4 :: b5 :: b6 :: b7 :: payload)
  = if Nat.even (length payload)
    then Ok (Frame (Np.to_signed 4 (Np.le_unsigned [b0; b1; b2; b3]))
               (Np.to_signed 4 (Np.le_unsigned [b4; b5; b6; b7]))
               (Np.items 2 (length payload / 2) payload))
    else Raise (ValueError
                  (py "buffer size must be a multiple of element size")).
Proof.
  unfold decode. cbn [take drop]. rewrite take_0, drop_0, frombuffer_int16.
  unfold Np.frombuffer. cbn [length Nat.modulo Nat.divmod Nat.div Nat.eqb
    fst snd Nat.sub Np.items take drop Np.unpack2].
  by destruct (Nat.even (length payload)).
Qed.

Lemma byte_of_to_N (b : Byte.byte) (x : Z) :
  (x mod 256 = Z.of_N (Byte.to_N b))%Z → Np.byte_of x = b.
Proof.
  intros Hx. unfold Np.byte_of. by rewrite Hx, N2Z.id, Byte.of_to_N.
Qed.

Lemma byte_range (b : Byte.byte) : (0 ≤ Z.of_N (Byte.to_N b) < 256)%Z.
Proof. pose proof (Byte.to_N_bounded b). lia. Qed.

(** Two bytes read as an [int16] and written back are the same two
    bytes. *)
Lemma int16_bytes_of_bytes (b0 b1 : Byte.byte) :
  Np.int16_bytes (Np.to_signed 2 (Np.le_unsigned [b0; b1])) = [b0; b1].
Proof.
  pose proof (byte_range b0) as H0. pose proof (byte_range b1) as H1.
  unfold Np.int16_bytes, Np.to_signed, Np.le_unsigned.
  change (2 ^ (8 * Z.of_nat 2 - 1))%Z with 32768%Z.
  set (n0 := Z.of_N (Byte.to_N b0)) in *.
  set (n1 := Z.of_N (Byte.to_N b1)) in *.
  destruct (n0 + 256 * (n1 + 256 * 0) <? 32768)%Z.
  - f_equal; [|f_equal]; apply byte_of_to_N; fold n0 n1;
      Z.div_mod_to_equations; lia.
  - f_equal; [|f_equal]; apply byte_of_to_N; fold n0 n1;
      Z.div_mod_to_equations; lia.
Qed.

Lemma raw16_items (count : nat) :
  ∀ payload : bytes,
    length payload = (2 * count)%nat →
    Np.raw16 (Np.items 2 count payload) = payload.
Proof.
  induction count as [|count IH]; intros payload Hlength.
  - by destruct payload.
  - destruct payload as [|b0 [|b1 payload]]; [cbn in Hlength; lia..|].
    cbn [Np.items take drop]. rewrite take_0, drop_0.
    unfold Np.raw16 in *. cbn [flat_map].
    rewrite int16_bytes_of_bytes, IH; [done|]. cbn in Hlength. lia.
Qed.

Lemma even_double (n : nat) : Nat.even n = true → n = (2 * (n / 2))%nat.
Proof.
  rewrite <- even_mod2. intros Hn%Nat.eqb_eq.
  by apply Nat.Div0.div_exact.
Qed.

Lemma decode_payload (data : bytes) (f : frame) :
  decode data = Ok f → Np.raw16 (audio_data f) = drop 8 data.
Proof.
  intros Hdecode.
  destruct (decide (length data < 8)%nat) as [Hshort|Hlong].
  { destruct (decode_short data Hshort) as [msg Hraise]. congruence. }
  do 8 (destruct data as [|? data]; [cbn in Hlong; lia|]).
  rewrite decode_long in Hdecode.
  destruct (Nat.even (length data)) eqn:Heven; [|done].
  injection Hdecode as <-. cbn [audio_data drop].
  by apply raw16_items, even_double.
Qed.

Lemma raw16_concat (buffer : list (list Z)) :
  Np.raw16 (concat buffer) = concat (map Np.raw16 buffer).
Proof.
  unfold Np.raw16. induction buffer as [|samples buffer IH]; [done|].
  cbn [concat map]. by rewrite flat_map_app, IH.
Qed.

End Decoder.

(** X14.  A binary message decodes exactly when it has at least eight
    bytes and an even length; the frame then holds one sample for every two
    bytes after the header, whatever count the header declares.  Any other
    message raises [ValueError]. *)
Theorem decode_shape (data : bytes) :
  if (8 <=? length data)%nat && Nat.even (length data)
  then ∃ f, decode data = Ok f
            ∧ length (audio_data f) = ((length data - 8) / 2)%nat
  else ∃ msg, decode data = Raise (ValueError msg).
Proof.
  destruct (Nat.leb_spec 8 (length data)) as [Hlong|Hshort]; cbn [andb];
    [|by apply decode_short].
  do 8 (destruct data as [|? data]; [cbn in Hlong; lia|]).
  rewrite decode_long. cbn [length Nat.even Nat.sub].
  destruct (Nat.even (length data)); [|eauto].
  eexists. split; [reflexivity|]. cbn [audio_data].
  by rewrite items_length, Nat.sub_0_r.
Qed.

(** X15.  The samples decoded from a message, written back with [tofile],
    are the bytes of the message after its header; so the raw file made
    from the frames of several messages is the concatenation of their
    payloads, in order. *)
Theorem payload_round_trip (messages : list bytes) (frames : list frame) :
  Forall2 (λ data f, decode data = Ok f) messages frames →
  Np.raw16 (concat (map audio_data frames)) = concat (map (drop 8) messages).
Proof.
  intros Hdecoded. rewrite raw16_concat. f_equal.
  induction Hdecoded as [|data f messages frames Hdecode _ IH]; [done|].
  cbn [map]. by rewrite (decode_payload data f Hdecode), IH.
Qed.

(** The theorem at a loud and a quiet message. *)
Lemma payload_round_trip_witness :
  Np.raw16 (concat (map audio_data [loud_frame; quiet_frame]))
  = concat (map (drop 8) [encode loud_frame; encode quiet_frame]).
Proof.
  apply (payload_round_trip [encode loud_frame; encode quiet_frame]
           [loud_frame; quiet_frame]).
  repeat constructor.
Defined.

(** ** More on the receive loop *)

Section Flush.




Lemma filter_Forall {A} (P : A → Prop) `{∀ x, Decision (P x)} (l : list A) :
  Forall P l → filter P l = l.
Proof.
  induction 1 as [|x l Hx Hl IH]; [done|].
  rewrite filter_cons_True by done. by rewrite IH.
Qed.

Lemma clean_nonempty (text : str) :
  Forall (λ s, s ≠ []) (_clean_whisper_output text).
Proof.
  apply Forall_forall. intros s Hs.
  by apply clean_sentence_origin in Hs as [Hne _].
Qed.

(** The replies for a successful run: one per sentence, or the one
    [no_text] reply. *)
Lemma replies_for_clean (text : str) :
  replies_for (Ok (_clean_whisper_output text))
  = match _clean_whisper_output text with
    | [] => [Reply (py "no_text") (py "未识别到文本")]
    | sentences => map (Reply (py "success")) sentences
    end.
Proof.
  pose proof (clean_nonempty text) as Hne. unfold replies_for.
  destruct (_clean_whisper_output text) as [|s l]; [done|].
  by rewrite filter_Forall.
Qed.


End Flush.

Section Accounting.





End Accounting.


Section SessionFiles.


End SessionFiles.








(** X21.  A flush whose engine run exits with code 0 sends one [success]
    reply per sentence of the sanitized output, in order, or the single
    [no_text] reply when there is no sentence. *)
Theorem flush_replies
    (ev : env) (data : bytes) (f : frame) (rest : list (env * recv))
    (w : world) (stdout stderr : str) :
  decode data = Ok f →
  F64.ltb (volume f) volume_threshold = false →
  F64.leb MIN_DURATION (buffer_duration (keep f w)) = true →
  concat (audio_buffer w ++ [audio_data f]) ≠ [] →
  write ev = Written →
  run ev = Exited 0 stdout stderr →
  ∃ w',
    process_audio ((ev, Bytes data) :: rest) w = process_audio rest w'
    ∧ sent w'
      = sent w
          ++ match _clean_whisper_output (strip stdout) with
             | [] => [Reply (py "no_text") (py "未识别到文本")]
             | sentences => map (Reply (py "success")) sentences
             end.
Proof.
  intros Hdecode Hloud Hcrossed Hsamples Hwrite Hrun.
  exists (flushed ev (keep f w)). split.
  { cbn [process_audio]. by rewrite (iteration_crossing ev data f w). }
  unfold flushed, stream_outcome. rewrite Hrun.
  cbn [sent keep set_buffer Z.eqb fst].
  by rewrite replies_for_clean.
Qed.

(** The theorem at an engine that prints "Hi. Hi. Bye.". *)
Lemma flush_replies_witness :
  ∃ w',
    process_audio [(engine_prints "Hi. Hi. Bye.", Bytes (encode loud_frame))]
      empty_world
    = process_audio [] w'
    ∧ sent w'
      = sent empty_world
          ++ match _clean_whisper_output (strip (py "Hi. Hi. Bye.")) with
             | [] => [Reply (py "no_text") (py "未识别到文本")]
             | sentences => map (Reply (py "success")) sentences
             end.
Proof.
  apply (flush_replies (engine_prints "Hi. Hi. Bye.") (encode loud_frame)
           loud_frame [] empty_world (py "Hi. Hi. Bye.") []).
  - vm_compute. reflexivity.
  - vm_compute. reflexivity.
  - vm_compute. reflexivity.
  - vm_compute. discriminate.
  - reflexivity.
  - reflexivity.
Defined.

(** ** Failures of the upload handler *)

(** X22.  When the upload cannot be saved, [/api/recognize] fails with
    status 500 and the message of the write error, wrapped twice; the engine
    is not started. *)
Theorem recognize_audio_save_failed
    (ev : env) (file : bytes) (model : str) (w : world)
    (left_behind : option bytes) (e : exn) :
  write ev = WriteFailed left_behind e →
  ∃ w',
    recognize_audio ev file model w
    = (Raise (HTTPException 500
                (exn_str (HTTPException 500
                            (py "Error saving file: " ++ exn_str e)))), w')
    ∧ runs w' = runs w
    ∧ sent w' = sent w.
Proof.
  intros Hwrite.
  unfold recognize_audio, try_finally, try_except at 1 2.
  unfold bind at 1. unfold try_except at 1. unfold write_file at 1.
  rewrite Hwrite.
  destruct left_behind as [partial|].
  - rewrite !log_and_raise. unfold try_except.
    rewrite remove_if_exists_gone. eexists. split; [reflexivity|]. done.
  - rewrite !log_and_raise. unfold try_except.
    rewrite remove_if_exists_gone. eexists. split; [reflexivity|]. done.
Qed.

(** The theorem at a full disk. *)
Lemma recognize_audio_save_failed_witness :
  ∃ w',
    recognize_audio disk_full [Byte.x01] default_model empty_world
    = (Raise (HTTPException 500
                (exn_str (HTTPException 500
                            (py "Error saving file: "
                               ++ exn_str (OSError
                                    (py "[Errno 28] No space left on device"))))))
       , w')
    ∧ runs w' = runs empty_world
    ∧ sent w' = sent empty_world.
Proof.
  apply (recognize_audio_save_failed disk_full [Byte.x01] default_model
           empty_world (Some [])
           (OSError (py "[Errno 28] No space left on device"))).
  reflexivity.
Defined.


